(** * Banking Management System: the application factory (app/__init__.py)

    A shallow embedding of the bootstrap module: the [Config] class, the
    principal loader [load_user], the start-up seeding done by [create_app],
    the landing route and the two error handlers.  Python strings are
    sequences of code points, the process environment is a finite map, and
    the code that touches the database, the ORM session or standard output
    runs in a state-and-exception monad over an explicit [world]. *)

From Stdlib Require Import ZArith NArith List String Ascii Bool Lia.
From stdpp Require Import base option list gmap.

Local Open Scope N_scope.

(** ** Python strings *)

(** A [str] is a sequence of Unicode code points. *)
Abbreviation pystr := (list N).

(** An ASCII literal of the source, as a [str]. *)
Definition py (s : string) : pystr :=
  List.map N_of_ascii (list_ascii_of_string s).

Module PyStr.

(** [s.startswith(prefix)] *)
Fixpoint startswith (s prefix : pystr) {struct prefix} : bool :=
  match prefix, s with
  | [], _ => true
  | _ :: _, [] => false
  | p :: prefix', c :: s' => (c =? p) && startswith s' prefix'
  end.

(** [s.split(sep)] for a separator of one character: the pieces between
    the occurrences of [sep], empty pieces kept, never an empty list. *)
Fixpoint split (s : pystr) (sep : N) : list pystr :=
  match s with
  | [] => [[]]
  | c :: s' =>
      if c =? sep then [] :: split s' sep
      else match split s' sep with
           | piece :: pieces => (c :: piece) :: pieces
           | [] => [[c]]
           end
  end.

(** [sep * n], as in the banner's ["=" * 60]. *)
Definition repeat_str (s : pystr) (n : nat) : pystr :=
  List.concat (List.repeat s n).

(** *** [int(s)] on a [str], base 10

    CPython's [PyLong_FromUnicodeObject]: the string is first brought to
    ASCII (other white space becomes a blank, other decimal digits become
    ['0'..'9'], anything else a question mark that ends the text), then
    [PyLong_FromString] reads blanks, a sign, digits that single
    underscores may separate, and blanks.  The Unicode character database
    and the interpreter's limit on the number of digits are parameters. *)
Section Int.
Variable unicode_IsWhitespace : N -> bool.
Variable unicode_ToDecimalDigit : N -> option N.
(** [sys.get_int_max_str_digits()]; 0 switches the limit off. *)
Variable int_max_str_digits : nat.

Definition ascii_whitespace (c : N) : bool :=
  (9 <=? c) && (c <=? 13) || (28 <=? c) && (c <=? 31) || (c =? 32).

Definition Py_UNICODE_ISSPACE (c : N) : bool :=
  if c <? 128 then ascii_whitespace c else unicode_IsWhitespace c.

Definition is_digit (c : N) : bool := (48 <=? c) && (c <=? 57).

Definition Py_UNICODE_TODECIMAL (c : N) : option N :=
  if c <? 128 then (if is_digit c then Some (c - 48) else None)
  else unicode_ToDecimalDigit c.

(** The C-locale [isspace] of pyctype. *)
Definition Py_ISSPACE (c : N) : bool :=
  (9 <=? c) && (c <=? 13) || (c =? 32).

Fixpoint transform_chars (s : pystr) : pystr :=
  match s with
  | [] => []
  | c :: s' =>
      if c <? 127 then c :: transform_chars s'
      else if Py_UNICODE_ISSPACE c then 32 :: transform_chars s'
      else match Py_UNICODE_TODECIMAL c with
           | Some d => (48 + d) :: transform_chars s'
           | None => [63]
           end
  end.

Definition TransformDecimalAndSpaceToASCII (s : pystr) : pystr :=
  if forallb (fun c => c <? 128) s then s else transform_chars s.

Fixpoint skip_space (s : pystr) : pystr :=
  match s with
  | c :: s' => if Py_ISSPACE c then skip_space s' else s
  | [] => []
  end.

(** The digit loop: [prev_us] says that the previous character was an
    underscore, [digits] counts the digits read, [acc] is their value.
    A doubled or a trailing underscore is a syntax error. *)
Fixpoint scan_digits (s : pystr) (prev_us : bool) (digits : nat) (acc : Z)
  : option (Z * nat * pystr) :=
  match s with
  | c :: s' =>
      if is_digit c then
        scan_digits s' false (S digits) (10 * acc + Z.of_N (c - 48))
      else if c =? 95 then
        (if prev_us then None else scan_digits s' true digits acc)
      else if prev_us then None else Some (acc, digits, s)
  | [] => if prev_us then None else Some (acc, digits, [])
  end.

Definition PY_LONG_MAX_STR_DIGITS_THRESHOLD : nat := 640.

Definition exceeds_max_str_digits (digits : nat) : bool :=
  (PY_LONG_MAX_STR_DIGITS_THRESHOLD <? digits)%nat
  && (0 <? int_max_str_digits)%nat
  && (int_max_str_digits <? digits)%nat.

Definition read_sign (s : pystr) : bool * pystr :=
  match s with
  | c :: s' =>
      if c =? 43 then (false, s')
      else if c =? 45 then (true, s')
      else (false, s)
  | [] => (false, [])
  end.

(** [None] is the [ValueError] of an invalid literal or of too many
    digits. *)
Definition PyLong_FromString (s : pystr) : option Z :=
  let '(negative, s2) := read_sign (skip_space s) in
  match s2 with
  | [] => None
  | c :: _ =>
      if c =? 95 then None
      else
        match scan_digits s2 false 0 0 with
        | None => None
        | Some (v, digits, rest) =>
            if exceeds_max_str_digits digits then None
            else if (digits =? 0)%nat then None
            else match skip_space rest with
                 | [] => Some (if negative then (- v)%Z else v)
                 | _ :: _ => None
                 end
        end
  end.

Definition py_int (s : pystr) : option Z :=
  PyLong_FromString (TransformDecimalAndSpaceToASCII s).

End Int.

(** The value of a run of ASCII digits, read in base 10. *)
Definition decimal (digits : pystr) : Z :=
  fold_left (fun acc c => (10 * acc + Z.of_N (c - 48))%Z) digits 0%Z.

End PyStr.


(** ** The configuration class *)

Record ConfigClass := {
  SECRET_KEY : pystr;
  SQLALCHEMY_DATABASE_URI : pystr;
  SQLALCHEMY_TRACK_MODIFICATIONS : bool;
  PERMANENT_SESSION_LIFETIME : Z;
  SESSION_COOKIE_HTTPONLY : bool;
  SESSION_COOKIE_SAMESITE : pystr;
  WTF_CSRF_ENABLED : bool;
  WTF_CSRF_TIME_LIMIT : option Z
}.

(** [x or default] where [x] is a [str] or [None]: the empty string and
    [None] are falsy. *)
Definition py_or (x : option pystr) (default : pystr) : pystr :=
  match x with
  | Some (c :: v) => c :: v
  | Some [] | None => default
  end.

(** The class body, evaluated against [os.environ] when the module is
    imported. *)
Definition Config (environ : gmap pystr pystr) : ConfigClass := {|
  SECRET_KEY :=
    py_or (environ !! py "SECRET_KEY")
          (py "dev-secret-key-change-in-production-2024");
  SQLALCHEMY_DATABASE_URI :=
    py_or (environ !! py "DATABASE_URL") (py "sqlite:///bank.db");
  SQLALCHEMY_TRACK_MODIFICATIONS := false;
  PERMANENT_SESSION_LIFETIME := 1800;
  SESSION_COOKIE_HTTPONLY := true;
  SESSION_COOKIE_SAMESITE := py "Lax";
  WTF_CSRF_ENABLED := true;
  WTF_CSRF_TIME_LIMIT := None
|}.

(** A setting is overridable when some environment changes its value. *)
Definition overridable {A} (setting : ConfigClass -> A) : Prop :=
  exists environ environ' : gmap pystr pystr,
    setting (Config environ) <> setting (Config environ').

(** ** The models and the database *)

(** Modelled from the spec: app.models is not among the sources.  [Admin]
    has the three columns the factory fills in and the integer primary key
    the loader looks up; the key is [None] until the row is inserted. *)
Module Admin.
Record t := {
  id : option Z;
  username : pystr;
  email : pystr;
  password : pystr
}.
End Admin.

(** Modelled from the spec: app.models is not among the sources.  Of
    [User] this module reads the integer primary key only. *)
Module User.
Record t := { id : option Z }.
End User.

Inductive entity :=
| EAdmin (a : Admin.t)
| EUser (u : User.t).

(** What the loader returns: a [User], an [Admin], or [None]. *)
Inductive principal :=
| PUser (u : User.t)
| PAdmin (a : Admin.t).

Inductive table := TAdmin | TUser.

(** A table that was never created is [None]. *)
Record database := {
  admin_table : option (list Admin.t);
  user_table : option (list User.t)
}.

Inductive exn :=
| ValueError
| IndexError
| TypeError
| OverflowError
| UnicodeEncodeError
| OSError
| OperationalError
| IntegrityError
| BuildError.

(** What is at [app.instance_path]: nothing yet, the directory, or
    something that keeps [os.makedirs] from making it (a file of that name,
    a parent that may not be written). *)
Inductive path_state :=
| PathAbsent
| PathDirectory
| PathBlocked.

(** What the code does to its collaborators, in the order it does it. *)
Inductive event :=
| EvCreateAll
| EvSelect (t : table)
| EvGet (t : table) (key : Z)
| EvAdd (e : entity)
| EvInsert (t : table)
| EvCommit
| EvRollback
| EvRemove
| EvRender (template : pystr)
| EvRegisterBlueprint (name : pystr).

Record world := {
  committed : database;       (* what the database holds *)
  txn : database;             (* as seen by the session's open transaction *)
  session_new : list entity;  (* added to db.session, not yet flushed *)
  instance_dir : path_state;  (* what is at app.instance_path *)
  drawn : nat;                (* salts drawn from the random source so far *)
  stdout : list pystr;
  trace : list event
}.

Definition set_txn (d : database) (w : world) : world :=
  {| committed := committed w; txn := d; session_new := session_new w;
     instance_dir := instance_dir w; drawn := drawn w; stdout := stdout w;
     trace := trace w |}.

Definition set_committed (d : database) (w : world) : world :=
  {| committed := d; txn := txn w; session_new := session_new w;
     instance_dir := instance_dir w; drawn := drawn w; stdout := stdout w;
     trace := trace w |}.

Definition set_session_new (l : list entity) (w : world) : world :=
  {| committed := committed w; txn := txn w; session_new := l;
     instance_dir := instance_dir w; drawn := drawn w; stdout := stdout w;
     trace := trace w |}.

Definition set_instance_dir (p : path_state) (w : world) : world :=
  {| committed := committed w; txn := txn w; session_new := session_new w;
     instance_dir := p; drawn := drawn w; stdout := stdout w;
     trace := trace w |}.

Definition set_drawn (n : nat) (w : world) : world :=
  {| committed := committed w; txn := txn w; session_new := session_new w;
     instance_dir := instance_dir w; drawn := n; stdout := stdout w;
     trace := trace w |}.

Definition set_stdout (l : list pystr) (w : world) : world :=
  {| committed := committed w; txn := txn w; session_new := session_new w;
     instance_dir := instance_dir w; drawn := drawn w; stdout := l;
     trace := trace w |}.

Definition set_trace (l : list event) (w : world) : world :=
  {| committed := committed w; txn := txn w; session_new := session_new w;
     instance_dir := instance_dir w; drawn := drawn w; stdout := stdout w;
     trace := l |}.

(** ** Computations that change the world and may raise *)

Inductive result (A : Type) :=
| Ok (a : A)
| Raise (e : exn).
Arguments Ok {A} a.
Arguments Raise {A} e.

Definition M (A : Type) : Type := world -> result A * world.

Definition ret {A} (a : A) : M A := fun w => (Ok a, w).

Definition raise {A} (e : exn) : M A := fun w => (Raise e, w).

Definition bind {A B} (m : M A) (k : A -> M B) : M B :=
  fun w =>
    match m w with
    | (Ok a, w') => k a w'
    | (Raise e, w') => (Raise e, w')
    end.

Notation "'let*' x ':=' m 'in' k" := (bind m (fun x => k))
  (at level 10, x name, m at level 100, k at level 200,
   format "'[v' 'let*'  x  ':='  m  'in' '/' k ']'").
Notation "'run' m 'in' k" := (bind m (fun _ => k))
  (at level 10, m at level 100, k at level 200,
   format "'[v' 'run'  m  'in' '/' k ']'").

Definition is_OSError (e : exn) : bool :=
  match e with
  | OSError => true
  | _ => false
  end.

(** [try: m except E: handler], where [caught] tells the exceptions that
    are instances of [E]. *)
Definition try_except {A} (m : M A) (caught : exn -> bool) (handler : M A)
  : M A :=
  fun w =>
    match m w with
    | (Ok a, w') => (Ok a, w')
    | (Raise e, w') => if caught e then handler w' else (Raise e, w')
    end.

(** [with ctx: m], where [leave] runs on the way out, raised or not. *)
Definition with_finally {A} (m : M A) (leave : M unit) : M A :=
  fun w =>
    match m w with
    | (r, w') =>
        match leave w' with
        | (Ok tt, w'') => (r, w'')
        | (Raise e, w'') => (Raise e, w'')
        end
    end.

Definition log (e : event) : M unit :=
  fun w => (Ok tt, set_trace (trace w ++ [e]) w).

(** [l[i]] *)
Definition getitem {A} (l : list A) (i : nat) : M A :=
  match l !! i with
  | Some x => ret x
  | None => raise IndexError
  end.

(** ** werkzeug.security

    [generate_password_hash] and [check_password_hash] for the [pbkdf2]
    family of methods.  The digest of [hashlib], what werkzeug does for
    its other methods, its default number of iterations and the random
    source are parameters. *)
Module Werkzeug.

(** The decimal digits of [n], the most significant first; [fuel] bounds
    their number. *)
Fixpoint digits_of (fuel : nat) (n : N) : pystr :=
  match fuel with
  | O => []
  | S fuel' =>
      if n <? 10 then [48 + n]
      else digits_of fuel' (n / 10) ++ [48 + n mod 10]
  end.

Definition str_N (n : N) : pystr :=
  digits_of (S (N.to_nat (N.log2 n))) n.

(** [s.split(sep, maxsplit)] for a separator of one character. *)
Fixpoint split_max (s : pystr) (sep : N) (maxsplit : nat) {struct s}
  : list pystr :=
  match maxsplit with
  | O => [s]
  | S fewer =>
      match s with
      | [] => [[]]
      | c :: s' =>
          if c =? sep then [] :: split_max s' sep fewer
          else match split_max s' sep maxsplit with
               | piece :: pieces => (c :: piece) :: pieces
               | [] => [[c]]
               end
      end
  end.

(** [s.encode()] succeeds: UTF-8 has no encoding for a surrogate. *)
Definition utf8_encodes (s : pystr) : bool :=
  forallb (fun c => negb ((55296 <=? c) && (c <=? 57343))) s.

Definition is_ascii (s : pystr) : bool := forallb (fun c => c <? 128) s.

Definition hex_digit (n : N) : N := if n <? 10 then 48 + n else 87 + n.

(** [digest.hex()] *)
Definition hex (digest : list N) : pystr :=
  flat_map (fun b => [hex_digit ((b mod 256) / 16); hex_digit (b mod 16)])
    digest.

(** [hmac.compare_digest(a, b)] on two [str]. *)
Definition compare_digest (a b : pystr) : result bool :=
  if is_ascii a && is_ascii b then Ok (bool_decide (a = b))
  else Raise TypeError.

Definition SALT_CHARS : pystr :=
  py "abcdefghijklmnopqrstuvwxyzABCDEFGHIJKLMNOPQRSTUVWXYZ0123456789".

Section Hashing.
Variable unicode_IsWhitespace : N -> bool.
Variable unicode_ToDecimalDigit : N -> option N.
Variable int_max_str_digits : nat.
(** [hashlib.pbkdf2_hmac(hash_name, password, salt, iterations)]: the
    digest, or the exception for a hash that is not known or a number of
    iterations that is not accepted. *)
Variable pbkdf2_hmac : pystr -> pystr -> pystr -> Z -> result (list N).
(** What [_hash_internal] does for a method other than [pbkdf2]. *)
Variable other_method : pystr -> pystr -> pystr -> result (pystr * pystr).
Variable DEFAULT_PBKDF2_ITERATIONS : N.
(** The numbers [secrets] draws, in the order it draws them. *)
Variable randbelow : nat -> nat.

(** [str(z)], as an f-string prints an integer: [None] is the
    [ValueError] of an integer with too many digits. *)
Definition py_str (z : Z) : option pystr :=
  let digits := str_N (Z.abs_N z) in
  if PyStr.exceeds_max_str_digits int_max_str_digits (length digits)
  then None
  else Some (if (z <? 0)%Z then 45 :: digits else digits).

Definition pbkdf2 (hash_name password salt : pystr) (iterations : Z)
  : result (pystr * pystr) :=
  match pbkdf2_hmac hash_name password salt iterations with
  | Raise e => Raise e
  | Ok digest =>
      match py_str iterations with
      | None => Raise ValueError
      | Some printed =>
          Ok (hex digest, py "pbkdf2:" ++ hash_name ++ py ":" ++ printed)
      end
  end.

(** The digest in hexadecimal and the method in full. *)
Definition _hash_internal (method salt password : pystr)
  : result (pystr * pystr) :=
  match PyStr.split method 58 with
  | [] => Raise ValueError
  | name :: args =>
      if negb (utf8_encodes salt && utf8_encodes password)
      then Raise UnicodeEncodeError
      else if bool_decide (name = py "pbkdf2") then
        match args with
        | [] => pbkdf2 (py "sha256") password salt
                  (Z.of_N DEFAULT_PBKDF2_ITERATIONS)
        | [hash_name] =>
            pbkdf2 hash_name password salt (Z.of_N DEFAULT_PBKDF2_ITERATIONS)
        | [hash_name; count] =>
            match PyStr.py_int unicode_IsWhitespace unicode_ToDecimalDigit
                    int_max_str_digits count with
            | Some iterations => pbkdf2 hash_name password salt iterations
            | None => Raise ValueError
            end
        | _ :: _ :: _ :: _ => Raise ValueError
        end
      else other_method method salt password
  end.

(** [gen_salt(length)], from the draw numbered [first] on. *)
Definition gen_salt (first length : nat) : pystr :=
  List.map (fun i => nth (randbelow (first + i) mod 62) SALT_CHARS 0)
    (seq 0 length).

(** [generate_password_hash(password, method)], once the salt is drawn. *)
Definition generate_password_hash (password method salt : pystr)
  : result pystr :=
  match _hash_internal method salt password with
  | Raise e => Raise e
  | Ok (h, actual_method) =>
      Ok (actual_method ++ py "$" ++ salt ++ py "$" ++ h)
  end.

Definition check_password_hash (pwhash password : pystr) : result bool :=
  match split_max pwhash 36 2 with
  | [method; salt; hashval] =>
      match _hash_internal method salt password with
      | Raise e => Raise e
      | Ok (h, _) => compare_digest h hashval
      end
  | _ => Ok false
  end.

End Hashing.
End Werkzeug.

(** ** The ORM session, the schema and the console *)

Definition session_idle (w : world) : Prop :=
  txn w = committed w /\ session_new w = [].

Definition create_tables (d : database) : database :=
  {| admin_table := Some (default [] (admin_table d));
     user_table := Some (default [] (user_table d)) |}.

Definition has_username (name : pystr) (a : Admin.t) : bool :=
  bool_decide (Admin.username a = name).

(** The rows called [name], in table order. *)
Definition admins_named (name : pystr) (d : database) : list Admin.t :=
  List.filter (has_username name) (default [] (admin_table d)).

(** A run of ASCII digits. *)
Abbreviation all_digits a := (Forall (fun c => PyStr.is_digit c = true) a).

(** ** Concrete collaborators

    Instances of what the factory takes from its surroundings, to run the
    model on examples. *)

(** The Unicode character database on the code points below 256: the
    white space outside ASCII is NEL and the no-break space, and there is
    no decimal digit outside ASCII. *)
Definition latin1_IsWhitespace (c : N) : bool := (c =? 133) || (c =? 160).

Definition latin1_ToDecimalDigit (c : N) : option N := None.

(** The default of [sys.get_int_max_str_digits()]. *)
Definition default_max_str_digits : nat := 4300.

(** A database that numbers its rows in a row: 1 in an empty table,
    otherwise one more than the largest key in use.  SQLite does so as long
    as the largest key is below [2^63 - 1]. *)
Definition next_rowid (ids : list Z) : Z :=
  match ids with
  | [] => 1
  | k :: ids' => 1 + foldr Z.max k ids'
  end.

(** The sqlite3 driver binds integers of 64 bits and raises
    [OverflowError] for any other. *)
Definition sqlite_key_error (key : Z) : option exn :=
  if ((- 2 ^ 63 <=? key) && (key <? 2 ^ 63))%Z then None
  else Some OverflowError.

(** A console in UTF-8 writes every character; one in Latin-1 writes the
    code points below 256. *)
Definition utf8_console (c : N) : bool := true.

Definition latin1_console (c : N) : bool := c <? 256.

(** A schema in which usernames of administrators are unique. *)
Definition unique_username (d : database) (e : entity) : bool :=
  match e with
  | EAdmin a =>
      negb (existsb (has_username (Admin.username a))
              (default [] (admin_table d)))
  | EUser _ => true
  end.

(** A hash in werkzeug's layout [method$salt$digest], with the password
    itself standing in for the digest. *)
Definition plain_generate_password_hash (password method salt : pystr)
  : pystr :=
  method ++ [36] ++ salt ++ [36] ++ password.

Definition counting_salt (n : nat) : pystr := [65 + N.of_nat n].

(** In place of [hashlib.pbkdf2_hmac]: the bytes of the salt and then those
    of the password, for every hash and every number of iterations. *)
Definition stub_pbkdf2_hmac
  (hash_name password salt : pystr) (iterations : Z) : result (list N) :=
  Ok (salt ++ password).

(** No method besides [pbkdf2]. *)
Definition no_other_method (method salt password : pystr)
  : result (pystr * pystr) :=
  Raise ValueError.

(** A random source that counts. *)
Definition counting_randbelow (n : nat) : nat := n.

(** werkzeug's hash over these two, with 600000 iterations by default.
    The empty string stands for a hash that could not be made. *)
Definition stub_generate_password_hash (password method salt : pystr)
  : pystr :=
  match Werkzeug.generate_password_hash latin1_IsWhitespace
          latin1_ToDecimalDigit default_max_str_digits stub_pbkdf2_hmac
          no_other_method 600000 password method salt with
  | Ok h => h
  | Raise _ => []
  end.

(** The salt of the [n]-th hash: sixteen characters of [gen_salt]. *)
Definition stub_salt (n : nat) : pystr :=
  Werkzeug.gen_salt counting_randbelow (16 * n) 16.

(** The URL map once the authentication blueprint is registered. *)
Definition auth_url_map (endpoint : pystr) : option pystr :=
  if bool_decide (endpoint = py "auth.choose") then Some (py "/auth/choose")
  else if bool_decide (endpoint = py "auth.login") then Some (py "/auth/login")
  else None.

(** A database file that does not exist yet, and nothing else going on. *)
Definition fresh_world : world :=
  {| committed := {| admin_table := None; user_table := None |};
     txn := {| admin_table := None; user_table := None |};
     session_new := [];
     instance_dir := PathAbsent;
     drawn := 0;
     stdout := [];
     trace := [] |}.

(** A schema in which e-mail addresses of administrators are unique. *)
Definition unique_email (d : database) (e : entity) : bool :=
  match e with
  | EAdmin a =>
      negb (existsb (fun a' => bool_decide (Admin.email a' = Admin.email a))
              (default [] (admin_table d)))
  | EUser _ => true
  end.

(** A database in which an administrator under another name holds the
    address of the default one. *)
Definition clashing_world : world :=
  let d :=
    {| admin_table :=
         Some [{| Admin.id := Some 1%Z;
                  Admin.username := py "root";
                  Admin.email := py "admin@banking.com";
                  Admin.password := py "pbkdf2:sha256$Z$hunter2" |}];
       user_table := Some [] |} in
  {| committed := d;
     txn := d;
     session_new := [];
     instance_dir := PathDirectory;
     drawn := 0;
     stdout := [];
     trace := [] |}.

Section App.
(** The Unicode database and digit limit behind [int]. *)
Variable unicode_IsWhitespace : N -> bool.
Variable unicode_ToDecimalDigit : N -> option N.
Variable int_max_str_digits : nat.
(** The integrity constraints app.models declares on its tables: whether
    the database accepts the row. *)
Variable constraints_ok : database -> entity -> bool.
(** The primary key the database gives a row inserted without one, from
    the keys in use. *)
Variable new_key : list Z -> Z.
(** The exception, if any, with which the database driver refuses to bind
    an integer as a key. *)
Variable key_error : Z -> option exn.
(** The characters the encoding of standard output can write. *)
Variable stdout_encodes : N -> bool.
(** werkzeug.security's [generate_password_hash], with the salt it draws
    made explicit, and the random source the salts come from. *)
Variable generate_password_hash : pystr -> pystr -> pystr -> pystr.
Variable gen_salt : nat -> pystr.
(** The URL of an endpoint, as the registered blueprints define it. *)
Variable url_map : pystr -> option pystr.

Definition int (s : pystr) : M Z :=
  match PyStr.py_int unicode_IsWhitespace unicode_ToDecimalDigit
          int_max_str_digits s with
  | Some z => ret z
  | None => raise ValueError
  end.

(** [print(line)]: the line is encoded as a whole, so that nothing of it
    is written when one of its characters cannot be. *)
Definition print (line : pystr) : M unit :=
  fun w =>
    if forallb stdout_encodes line
    then (Ok tt, set_stdout (stdout w ++ [line]) w)
    else (Raise UnicodeEncodeError, w).

Definition assign_id (key : option Z) (ids : list Z) : Z :=
  match key with
  | Some k => k
  | None => new_key ids
  end.

(** The INSERT of one object. *)
Definition insert_entity (d : database) (e : entity) : result database :=
  match e with
  | EAdmin a =>
      match admin_table d with
      | None => Raise OperationalError
      | Some rows =>
          if constraints_ok d e then
            Ok {| admin_table :=
                    Some (rows ++
                      [{| Admin.id :=
                            Some (assign_id (Admin.id a)
                                    (omap Admin.id rows));
                          Admin.username := Admin.username a;
                          Admin.email := Admin.email a;
                          Admin.password := Admin.password a |}]);
                  user_table := user_table d |}
          else Raise IntegrityError
      end
  | EUser u =>
      match user_table d with
      | None => Raise OperationalError
      | Some rows =>
          if constraints_ok d e then
            Ok {| admin_table := admin_table d;
                  user_table :=
                    Some (rows ++
                      [{| User.id :=
                            Some (assign_id (User.id u)
                                    (omap User.id rows)) |}]) |}
          else Raise IntegrityError
      end
  end.

Definition table_of (e : entity) : table :=
  match e with
  | EAdmin _ => TAdmin
  | EUser _ => TUser
  end.

Definition insert (e : entity) : M unit :=
  fun w =>
    match insert_entity (txn w) e with
    | Ok d => log (EvInsert (table_of e)) (set_txn d w)
    | Raise ex => (Raise ex, w)
    end.

Fixpoint insert_all (l : list entity) : M unit :=
  match l with
  | [] => ret tt
  | e :: l' => run insert e in insert_all l'
  end.

(** [db.session.flush()]: the pending objects are inserted in the open
    transaction; a failure rolls the transaction back. *)
Definition flush : M unit :=
  fun w =>
    match insert_all (session_new w) (set_session_new [] w) with
    | (Ok tt, w') => (Ok tt, w')
    | (Raise ex, w') => (Raise ex, set_txn (committed w') w')
    end.

(** [db.session.add(obj)] *)
Definition session_add (e : entity) : M unit :=
  run log (EvAdd e) in
  fun w => (Ok tt, set_session_new (session_new w ++ [e]) w).

(** [db.session.commit()] *)
Definition session_commit : M unit :=
  run flush in
  run (fun w => (Ok tt, set_committed (txn w) w)) in
  log EvCommit.

(** [db.session.rollback()] *)
Definition session_rollback : M unit :=
  run (fun w => (Ok tt, set_session_new [] (set_txn (committed w) w))) in
  log EvRollback.

(** [db.session.remove()], which Flask-SQLAlchemy runs when an
    application context is left. *)
Definition session_remove : M unit :=
  run (fun w => (Ok tt, set_session_new [] (set_txn (committed w) w))) in
  log EvRemove.

(** [db.create_all()]: the missing tables are created, empty, outside
    the session's transaction. *)
Definition create_all : M unit :=
  run log EvCreateAll in
  fun w =>
    (Ok tt,
     set_txn (create_tables (txn w))
       (set_committed (create_tables (committed w)) w)).

(** [Admin.query.filter_by(username=name).first()]; the query flushes the
    session first. *)
Definition Admin_query_filter_by_username_first (name : pystr)
  : M (option Admin.t) :=
  run flush in
  run log (EvSelect TAdmin) in
  fun w =>
    match admin_table (txn w) with
    | None => (Raise OperationalError, w)
    | Some rows => (Ok (List.find (has_username name) rows), w)
    end.

Definition has_admin_id (key : Z) (a : Admin.t) : bool :=
  bool_decide (Admin.id a = Some key).

Definition has_user_id (key : Z) (u : User.t) : bool :=
  bool_decide (User.id u = Some key).

(** [Admin.query.get(key)]: the session is flushed, then the row with
    that primary key is selected; the answer is the row or [None].  The
    statement is prepared before the key is bound, so that a missing table
    is found out first. *)
Definition Admin_query_get (key : Z) : M (option Admin.t) :=
  run flush in
  run log (EvGet TAdmin key) in
  fun w =>
    match admin_table (txn w) with
    | None => (Raise OperationalError, w)
    | Some rows =>
        match key_error key with
        | Some e => (Raise e, w)
        | None => (Ok (List.find (has_admin_id key) rows), w)
        end
    end.

(** [User.query.get(key)] *)
Definition User_query_get (key : Z) : M (option User.t) :=
  run flush in
  run log (EvGet TUser key) in
  fun w =>
    match user_table (txn w) with
    | None => (Raise OperationalError, w)
    | Some rows =>
        match key_error key with
        | Some e => (Raise e, w)
        | None => (Ok (List.find (has_user_id key) rows), w)
        end
    end.

(** [os.makedirs(app.instance_path)]: the directory is made where there
    was nothing; where it exists already, and where it cannot be made, the
    call raises an [OSError] and changes nothing. *)
Definition makedirs : M unit :=
  fun w =>
    match instance_dir w with
    | PathAbsent => (Ok tt, set_instance_dir PathDirectory w)
    | PathDirectory | PathBlocked => (Raise OSError, w)
    end.

(** [generate_password_hash(password, method=method)], drawing a salt. *)
Definition draw_password_hash (password method : pystr) : M pystr :=
  fun w =>
    (Ok (generate_password_hash password method (gen_salt (drawn w))),
     set_drawn (S (drawn w)) w).

(** ** The principal loader *)

(** The separator ['_'] is the code point 95. *)
Definition load_user (user_id : pystr) : M (option principal) :=
  if PyStr.startswith user_id (py "admin_") then
    let* segment := getitem (PyStr.split user_id 95) 1 in
    let* admin_id := int segment in
    let* admin := Admin_query_get admin_id in
    ret (PAdmin <$> admin)
  else
    let* key := int user_id in
    let* user := User_query_get key in
    ret (PUser <$> user).

(** ** The factory *)

Record Flask := {
  config : ConfigClass;
  login_view : pystr;
  login_message : pystr;
  login_message_category : pystr;
  blueprints : list pystr;
  url_rules : list pystr;
  error_handlers : list Z
}.

Definition default_admin (hash : pystr) : Admin.t :=
  {| Admin.id := None;
     Admin.username := py "admin";
     Admin.email := py "admin@banking.com";
     Admin.password := hash |}.

Definition banner : list pystr :=
  [ PyStr.repeat_str (py "=") 60;
    10003 :: py " Default admin account created successfully!";
    py "  Username: admin";
    py "  Password: admin123";
    py "  " ++ [9888; 65039]
      ++ py "  IMPORTANT: Change this password after first login!";
    PyStr.repeat_str (py "=") 60 ].

Fixpoint print_all (lines : list pystr) : M unit :=
  match lines with
  | [] => ret tt
  | line :: lines' => run print line in print_all lines'
  end.

(** The body of [with app.app_context():]. *)
Definition seed_default_admin : M unit :=
  run create_all in
  let* admin := Admin_query_filter_by_username_first (py "admin") in
  match admin with
  | Some _ => ret tt
  | None =>
      let* hash := draw_password_hash (py "admin123") (py "pbkdf2:sha256") in
      run session_add (EAdmin (default_admin hash)) in
      run session_commit in
      print_all banner
  end.

Definition register_blueprint (name : pystr) : M unit :=
  log (EvRegisterBlueprint name).

(** The application object the factory hands back: the configuration, the
    settings of the login manager, the blueprints, the rule of the landing
    route and the two error handlers. *)
Definition app_of (config_class : ConfigClass) : Flask :=
  {| config := config_class;
     login_view := py "auth.login";
     login_message := py "Please log in to access this page.";
     login_message_category := py "info";
     blueprints := [py "auth"; py "user_routes"; py "admin_routes"];
     url_rules := [py "/"];
     error_handlers := [404; 500]%Z |}.

(** [db.init_app(app)] and [login_manager.init_app(app)] are taken to
    return, as they do over a database that can be reached; for a database
    file kept under the instance path this asks for the path to be a
    directory by then, which is why the results on what a start-up stores
    leave [PathBlocked] aside. *)
Definition create_app (config_class : ConfigClass) : M Flask :=
  run try_except makedirs is_OSError (ret tt) in
  run with_finally seed_default_admin session_remove in
  run register_blueprint (py "auth") in
  run register_blueprint (py "user_routes") in
  run register_blueprint (py "admin_routes") in
  ret (app_of config_class).

(** [n] start-ups in a row against the same world. *)
Fixpoint startups (n : nat) (config_class : ConfigClass) : M unit :=
  match n with
  | O => ret tt
  | S n' => run create_app config_class in startups n' config_class
  end.

(** The world after [n] start-ups in a row, whether they returned or
    raised. *)
Fixpoint invocations (n : nat) (config_class : ConfigClass) (w : world)
  : world :=
  match n with
  | O => w
  | S n' => invocations n' config_class (snd (create_app config_class w))
  end.

(** ** The landing route and the error handlers *)

Record Request := { method : pystr; path : pystr }.

Record Response := {
  status : Z;
  location : option pystr;   (* the Location header of a redirect *)
  rendered : option pystr    (* the template the body was rendered from *)
}.

Definition url_for (endpoint : pystr) : M pystr :=
  match url_map endpoint with
  | Some url => ret url
  | None => raise BuildError
  end.

Definition redirect (url : pystr) : M Response :=
  ret {| status := 302; location := Some url; rendered := None |}.

Definition render_template (name : pystr) : M pystr :=
  run log (EvRender name) in ret name.

Definition index (request : Request) : M Response :=
  let* url := url_for (py "auth.choose") in
  redirect url.

Definition not_found_error (error : exn) : M Response :=
  let* page := render_template (py "errors/404.html") in
  ret {| status := 404; location := None; rendered := Some page |}.

Definition internal_error (error : exn) : M Response :=
  run session_rollback in
  let* page := render_template (py "errors/500.html") in
  ret {| status := 500; location := None; rendered := Some page |}.


(** ** The world after a start-up *)

Definition registrations : list event :=
  [EvRegisterBlueprint (py "auth");
   EvRegisterBlueprint (py "user_routes");
   EvRegisterBlueprint (py "admin_routes")].

(** The hash the next start-up would store. *)
Definition seed_hash (w : world) : pystr :=
  generate_password_hash (py "admin123") (py "pbkdf2:sha256")
    (gen_salt (drawn w)).

(** The row the next start-up would insert. *)
Definition seeded_admin (w : world) : Admin.t :=
  {| Admin.id :=
       Some (new_key
               (omap Admin.id (default [] (admin_table (committed w)))));
     Admin.username := py "admin";
     Admin.email := py "admin@banking.com";
     Admin.password := seed_hash w |}.

(** The database accepts the default administrator. *)
Definition seed_accepted (w : world) : Prop :=
  constraints_ok (create_tables (committed w))
    (EAdmin (default_admin (seed_hash w))) = true.

(** What is at the instance path once [os.makedirs] has been tried. *)
Definition after_makedirs (p : path_state) : path_state :=
  match p with
  | PathAbsent => PathDirectory
  | PathDirectory => PathDirectory
  | PathBlocked => PathBlocked
  end.

(** Every line of the banner can be written to standard output. *)
Definition banner_printable : bool :=
  forallb (forallb stdout_encodes) banner.

(** The world a start-up leaves when it found an administrator called
    [admin]. *)
Definition after_startup_present (w : world) : world :=
  {| committed := create_tables (committed w);
     txn := create_tables (committed w);
     session_new := [];
     instance_dir := after_makedirs (instance_dir w);
     drawn := drawn w;
     stdout := stdout w;
     trace :=
       trace w ++ [EvCreateAll; EvSelect TAdmin; EvRemove]
         ++ registrations |}.

(** The database once the default administrator is stored. *)
Definition seeded_database (w : world) : database :=
  {| admin_table :=
       Some (default [] (admin_table (committed w)) ++ [seeded_admin w]);
     user_table := Some (default [] (user_table (committed w))) |}.

(** The world a start-up leaves when it found none, stored the default
    administrator and wrote [printed] to standard output; it went on to
    register the blueprints if [returned]. *)
Definition after_startup_absent
  (w : world) (printed : list pystr) (returned : bool) : world :=
  {| committed := seeded_database w;
     txn := seeded_database w;
     session_new := [];
     instance_dir := after_makedirs (instance_dir w);
     drawn := S (drawn w);
     stdout := stdout w ++ printed;
     trace :=
       trace w
         ++ [EvCreateAll; EvSelect TAdmin;
             EvAdd (EAdmin (default_admin (seed_hash w)));
             EvInsert TAdmin; EvCommit; EvRemove]
         ++ (if returned then registrations else []) |}.

(** Both tables have been created. *)
Definition has_tables (d : database) : Prop :=
  is_Some (admin_table d) /\ is_Some (user_table d).

(** The tables exist, in the database and in the open transaction. *)
Definition started (w : world) : Prop :=
  has_tables (committed w) /\ has_tables (txn w).

(** [m] keeps [P], whether it returns or raises. *)
Definition preserves {A} (P : world -> Prop) (m : M A) : Prop :=
  forall w, P w -> P (snd (m w)).

(** Two worlds that differ in their traces at most. *)
Definition same_but_trace (w1 w2 : world) : Prop :=
  committed w1 = committed w2 /\
  txn w1 = txn w2 /\
  session_new w1 = session_new w2 /\
  instance_dir w1 = instance_dir w2 /\
  drawn w1 = drawn w2 /\
  stdout w1 = stdout w2.

(** The events that read a table. *)
Definition is_lookup (e : event) : bool :=
  match e with
  | EvSelect _ | EvGet _ _ => true
  | _ => false
  end.

(** * Properties *)

(** ** Strings *)

Lemma startswith_app (prefix s : pystr) :
  PyStr.startswith (prefix ++ s) prefix = true.
Proof.
  induction prefix as [|p prefix IH]; [done|].
  cbn. by rewrite N.eqb_refl, IH.
Qed.

Lemma startswith_inv (s prefix : pystr) :
  PyStr.startswith s prefix = true -> exists rest, s = prefix ++ rest.
Proof.
  revert s. induction prefix as [|p prefix IH]; intros s H.
  - by exists s.
  - destruct s as [|c s]; [done|]. cbn in H.
    apply andb_true_iff in H as [Hc Hs]. apply N.eqb_eq in Hc as ->.
    destruct (IH _ Hs) as [rest ->]. by exists rest.
Qed.

Lemma split_nonempty (s : pystr) (sep : N) : PyStr.split s sep <> [].
Proof.
  destruct s as [|c s]; [done|]. cbn.
  destruct (c =? sep); [done|]. by destruct (PyStr.split s sep).
Qed.

(** A piece that holds no separator is cut off at the first one. *)
Lemma split_piece (a rest : pystr) (sep : N) :
  sep ∉ a -> PyStr.split (a ++ sep :: rest) sep = a :: PyStr.split rest sep.
Proof.
  induction a as [|c a IH]; intros Hsep; cbn.
  - by rewrite N.eqb_refl.
  - apply not_elem_of_cons in Hsep as [Hc Ha].
    destruct (N.eqb_spec c sep) as [E|_]; [congruence|]. by rewrite IH.
Qed.

Lemma split_last_piece (a : pystr) (sep : N) :
  sep ∉ a -> PyStr.split a sep = [a].
Proof.
  induction a as [|c a IH]; intros Hsep; cbn; [done|].
  apply not_elem_of_cons in Hsep as [Hc Ha].
  destruct (N.eqb_spec c sep) as [E|_]; [congruence|]. by rewrite IH.
Qed.

Lemma split_admin_prefix (rest : pystr) :
  PyStr.split (py "admin_" ++ rest) 95 = py "admin" :: PyStr.split rest 95.
Proof. reflexivity. Qed.


(** ** [int] *)

Local Abbreviation py_int :=
  (PyStr.py_int unicode_IsWhitespace unicode_ToDecimalDigit
     int_max_str_digits).

Lemma is_digit_range (c : N) : PyStr.is_digit c = true -> 48 <= c <= 57.
Proof.
  unfold PyStr.is_digit. intros H.
  apply andb_true_iff in H as [H1 H2].
  apply N.leb_le in H1, H2. lia.
Qed.

Lemma digit_not_space (c : N) :
  PyStr.is_digit c = true -> PyStr.Py_ISSPACE c = false.
Proof.
  intros H%is_digit_range. unfold PyStr.Py_ISSPACE.
  destruct (N.leb_spec 9 c), (N.leb_spec c 13), (N.eqb_spec c 32);
    cbn; try reflexivity; lia.
Qed.

Lemma digit_not (c k : N) :
  PyStr.is_digit c = true -> (k < 48 \/ 57 < k) -> (c =? k) = false.
Proof. intros H%is_digit_range Hk. apply N.eqb_neq. lia. Qed.

Lemma digits_ascii (a : pystr) :
  Forall (fun c => PyStr.is_digit c = true) a ->
  forallb (fun c => c <? 128) a = true.
Proof.
  induction 1 as [|c a Hc _ IH]; [done|]. cbn.
  apply is_digit_range in Hc. rewrite IH, andb_true_r.
  apply N.ltb_lt. lia.
Qed.

Lemma scan_digits_all (a : pystr) (digits : nat) (acc : Z) :
  Forall (fun c => PyStr.is_digit c = true) a ->
  PyStr.scan_digits a false digits acc =
    Some (fold_left (fun acc c => (10 * acc + Z.of_N (c - 48))%Z) a acc,
          (digits + length a)%nat, []).
Proof.
  intros Ha. revert digits acc.
  induction Ha as [|c a Hc _ IH]; intros digits acc; cbn.
  - by rewrite Nat.add_0_r.
  - rewrite Hc, IH. do 3 f_equal. lia.
Qed.

(** A non-empty run of ASCII digits that respects the digit limit is
    read as its decimal value. *)
Lemma py_int_decimal (a : pystr) :
  a <> [] ->
  Forall (fun c => PyStr.is_digit c = true) a ->
  PyStr.exceeds_max_str_digits int_max_str_digits (length a) = false ->
  py_int a = Some (PyStr.decimal a).
Proof.
  intros Hne Ha Hlim.
  unfold PyStr.py_int, PyStr.TransformDecimalAndSpaceToASCII.
  rewrite (digits_ascii a Ha).
  destruct a as [|c a]; [done|]. clear Hne.
  pose proof (Forall_inv Ha) as Hc. cbn beta in Hc.
  unfold PyStr.PyLong_FromString.
  cbn [PyStr.skip_space]. rewrite (digit_not_space c Hc).
  cbn [PyStr.read_sign].
  rewrite !(digit_not c) by (done || lia).
  rewrite (scan_digits_all (c :: a) 0 0 Ha).
  cbn [Nat.add]. rewrite Hlim. cbn. reflexivity.
Qed.

(** ** The principal loader *)

Lemma load_user_admin (rest : pystr) (w : world) :
  load_user (py "admin_" ++ rest) w =
    (let* admin_id := int (hd [] (PyStr.split rest 95)) in
     let* admin := Admin_query_get admin_id in
     ret (PAdmin <$> admin)) w.
Proof.
  unfold load_user. rewrite startswith_app, split_admin_prefix.
  pose proof (split_nonempty rest 95) as Hne.
  by destruct (PyStr.split rest 95).
Qed.

Lemma admin_segment (rest : pystr) :
  PyStr.split (py "admin_" ++ rest) 95 !! 1%nat =
    Some (hd [] (PyStr.split rest 95)).
Proof.
  rewrite split_admin_prefix.
  pose proof (split_nonempty rest 95) as Hne.
  by destruct (PyStr.split rest 95).
Qed.

(** *** What a flush and a lookup leave behind *)

Lemma flush_nothing_pending (w : world) :
  session_new w = [] -> flush w = (Ok tt, w).
Proof.
  destruct w as [c t sn p dr so tr]. cbn. by intros ->.
Qed.

(** Apart from the trace, an insert touches the open transaction only. *)
Lemma insert_frame (e : entity) (w : world) :
  committed (snd (insert e w)) = committed w /\
  session_new (snd (insert e w)) = session_new w /\
  instance_dir (snd (insert e w)) = instance_dir w /\
  drawn (snd (insert e w)) = drawn w /\
  stdout (snd (insert e w)) = stdout w /\
  exists new,
    trace (snd (insert e w)) = trace w ++ new /\
    Forall (fun e' => is_lookup e' = false) new.
Proof.
  unfold insert. destruct (insert_entity (txn w) e) as [d|ex]; cbn.
  - repeat split. exists [EvInsert (table_of e)]. by repeat constructor.
  - repeat split. exists []. by rewrite app_nil_r.
Qed.

Lemma insert_all_frame (l : list entity) (w : world) :
  committed (snd (insert_all l w)) = committed w /\
  session_new (snd (insert_all l w)) = session_new w /\
  instance_dir (snd (insert_all l w)) = instance_dir w /\
  drawn (snd (insert_all l w)) = drawn w /\
  stdout (snd (insert_all l w)) = stdout w /\
  exists new,
    trace (snd (insert_all l w)) = trace w ++ new /\
    Forall (fun e' => is_lookup e' = false) new.
Proof.
  revert w. induction l as [|e l IH]; intros w.
  - cbn. repeat split. exists []. by rewrite app_nil_r.
  - cbn [insert_all]. unfold bind.
    destruct (insert_frame e w) as (Hc & Hs & Hi & Hd & Ho & new & Ht & Hn).
    destruct (insert e w) as [[[]|ex] w1]; cbn [snd] in *.
    + destruct (IH w1)
        as (Hc' & Hs' & Hi' & Hd' & Ho' & new' & Ht' & Hn').
      rewrite Hc', Hs', Hi', Hd', Ho', Hc, Hs, Hi, Hd, Ho.
      repeat split. exists (new ++ new').
      rewrite Ht', Ht, app_assoc. split; [done|]. by apply Forall_app.
    + repeat split; try done. by exists new.
Qed.

(** A flush does not commit, print or draw; it adds no lookup to the
    trace. *)
Lemma flush_frame (w : world) :
  committed (snd (flush w)) = committed w /\
  session_new (snd (flush w)) = [] /\
  instance_dir (snd (flush w)) = instance_dir w /\
  drawn (snd (flush w)) = drawn w /\
  stdout (snd (flush w)) = stdout w /\
  exists new,
    trace (snd (flush w)) = trace w ++ new /\
    Forall (fun e' => is_lookup e' = false) new.
Proof.
  unfold flush.
  destruct (insert_all_frame (session_new w) (set_session_new [] w))
    as (Hc & Hs & Hi & Hd & Ho & new & Ht & Hn).
  destruct (insert_all (session_new w) (set_session_new [] w))
    as [[[]|ex] w1]; cbn in *; repeat split; try done; by exists new.
Qed.

Lemma Admin_query_get_idle (key : Z) (w : world) :
  session_new w = [] ->
  Admin_query_get key w =
    (match admin_table (txn w) with
     | Some rows =>
         match key_error key with
         | Some e => Raise e
         | None => Ok (List.find (has_admin_id key) rows)
         end
     | None => Raise OperationalError
     end,
     set_trace (trace w ++ [EvGet TAdmin key]) w).
Proof.
  intros Hidle. unfold Admin_query_get, bind.
  rewrite (flush_nothing_pending w Hidle). unfold log. cbn.
  destruct (admin_table (txn w)); [|done]. by destruct (key_error key).
Qed.

Lemma User_query_get_idle (key : Z) (w : world) :
  session_new w = [] ->
  User_query_get key w =
    (match user_table (txn w) with
     | Some rows =>
         match key_error key with
         | Some e => Raise e
         | None => Ok (List.find (has_user_id key) rows)
         end
     | None => Raise OperationalError
     end,
     set_trace (trace w ++ [EvGet TUser key]) w).
Proof.
  intros Hidle. unfold User_query_get, bind.
  rewrite (flush_nothing_pending w Hidle). unfold log. cbn.
  destruct (user_table (txn w)); [|done]. by destruct (key_error key).
Qed.

(** A lookup by key does not commit, print or draw, and the one lookup it
    adds to the trace is its own. *)
Lemma Admin_query_get_frame (key : Z) (w : world) :
  committed (snd (Admin_query_get key w)) = committed w /\
  session_new (snd (Admin_query_get key w)) = [] /\
  instance_dir (snd (Admin_query_get key w)) = instance_dir w /\
  drawn (snd (Admin_query_get key w)) = drawn w /\
  stdout (snd (Admin_query_get key w)) = stdout w /\
  exists new,
    trace (snd (Admin_query_get key w)) = trace w ++ new /\
    forall e, e ∈ new -> is_lookup e = true -> e = EvGet TAdmin key.
Proof.
  unfold Admin_query_get, bind.
  destruct (flush_frame w) as (Hc & Hs & Hi & Hd & Ho & new & Ht & Hn).
  destruct (flush w) as [[[]|ex] w1]; cbn [snd] in *.
  - unfold log.
    assert (forall e, e ∈ new ++ [EvGet TAdmin key] ->
                      is_lookup e = true -> e = EvGet TAdmin key) as Hnew.
    { intros e [Hin|Hin]%elem_of_app Hl.
      - rewrite Forall_forall in Hn. by rewrite (Hn e Hin) in Hl.
      - by apply list_elem_of_singleton in Hin. }
    cbn. destruct (admin_table (txn w1)); [destruct (key_error key)|]; cbn;
      (split_and!; [done..|]);
      exists (new ++ [EvGet TAdmin key]); by rewrite Ht, app_assoc.
  - split_and!; [done..|]. exists new. split; [done|].
    intros e Hin Hl. rewrite Forall_forall in Hn.
    by rewrite (Hn e Hin) in Hl.
Qed.

Lemma User_query_get_frame (key : Z) (w : world) :
  committed (snd (User_query_get key w)) = committed w /\
  session_new (snd (User_query_get key w)) = [] /\
  instance_dir (snd (User_query_get key w)) = instance_dir w /\
  drawn (snd (User_query_get key w)) = drawn w /\
  stdout (snd (User_query_get key w)) = stdout w /\
  exists new,
    trace (snd (User_query_get key w)) = trace w ++ new /\
    forall e, e ∈ new -> is_lookup e = true -> e = EvGet TUser key.
Proof.
  unfold User_query_get, bind.
  destruct (flush_frame w) as (Hc & Hs & Hi & Hd & Ho & new & Ht & Hn).
  destruct (flush w) as [[[]|ex] w1]; cbn [snd] in *.
  - unfold log.
    assert (forall e, e ∈ new ++ [EvGet TUser key] ->
                      is_lookup e = true -> e = EvGet TUser key) as Hnew.
    { intros e [Hin|Hin]%elem_of_app Hl.
      - rewrite Forall_forall in Hn. by rewrite (Hn e Hin) in Hl.
      - by apply list_elem_of_singleton in Hin. }
    cbn. destruct (user_table (txn w1)); [destruct (key_error key)|]; cbn;
      (split_and!; [done..|]);
      exists (new ++ [EvGet TUser key]); by rewrite Ht, app_assoc.
  - split_and!; [done..|]. exists new. split; [done|].
    intros e Hin Hl. rewrite Forall_forall in Hn.
    by rewrite (Hn e Hin) in Hl.
Qed.

Lemma bind_ret_snd {A B} (m : M A) (f : A -> B) (w : world) :
  snd ((let* a := m in ret (f a)) w) = snd (m w).
Proof. unfold bind, ret. by destruct (m w) as [[a|e] w']. Qed.

(** What the loader does, by the shape of the identifier. *)
Lemma load_user_cases (user_id : pystr) (w : world) :
  if PyStr.startswith user_id (py "admin_") then
    exists segment,
      PyStr.split user_id 95 !! 1%nat = Some segment /\
      match py_int segment with
      | Some admin_id =>
          load_user user_id w =
            (let* admin := Admin_query_get admin_id in
             ret (PAdmin <$> admin)) w
      | None => load_user user_id w = (Raise ValueError, w)
      end
  else
    match py_int user_id with
    | Some key =>
        load_user user_id w =
          (let* user := User_query_get key in ret (PUser <$> user)) w
    | None => load_user user_id w = (Raise ValueError, w)
    end.
Proof.
  destruct (PyStr.startswith user_id (py "admin_")) eqn:Hprefix.
  - apply startswith_inv in Hprefix as [rest ->].
    exists (hd [] (PyStr.split rest 95)). split; [apply admin_segment|].
    rewrite load_user_admin. unfold int, bind.
    by destruct (py_int _).
  - unfold load_user. rewrite Hprefix. unfold int, bind.
    by destruct (py_int _).
Qed.



(** C4, as amended.  When the piece of an [admin_] identifier between its
    first and its second underscore is not accepted by [int], and when an
    identifier without that prefix is not accepted by [int] as a whole,
    the loader raises [ValueError]; nothing in the loader catches it and
    the world is left as it was. *)
Theorem load_user_malformed_raises (user_id : pystr) (w : world) :
  (forall segment,
      PyStr.startswith user_id (py "admin_") = true ->
      PyStr.split user_id 95 !! 1%nat = Some segment ->
      py_int segment = None ->
      load_user user_id w = (Raise ValueError, w)) /\
  (PyStr.startswith user_id (py "admin_") = false ->
   py_int user_id = None ->
   load_user user_id w = (Raise ValueError, w)).
Proof.
  pose proof (load_user_cases user_id w) as H. split.
  - intros segment Hprefix Hseg Hint. rewrite Hprefix in H.
    destruct H as (segment' & Hseg' & H).
    rewrite Hseg in Hseg'. injection Hseg' as <-.
    by rewrite Hint in H.
  - intros Hprefix Hint. by rewrite Hprefix, Hint in H.
Qed.

(** C9.  In [admin_<a>_<b>], with [<a>] a non-empty run of digits within
    the interpreter's digit limit, the loader looks up the [Admin] row
    whose key is the decimal value of [<a>], whatever [<b>] is: the
    answer is that of [admin_<a>].  The identifier [admin_] alone raises
    [ValueError]. *)
Theorem load_user_extra_segments (a b : pystr) (w : world) :
  a <> [] ->
  Forall (fun c => PyStr.is_digit c = true) a ->
  PyStr.exceeds_max_str_digits int_max_str_digits (length a) = false ->
  load_user (py "admin_" ++ a ++ py "_" ++ b) w =
    (let* admin := Admin_query_get (PyStr.decimal a) in
     ret (PAdmin <$> admin)) w /\
  load_user (py "admin_" ++ a ++ py "_" ++ b) w =
    load_user (py "admin_" ++ a) w /\
  load_user (py "admin_") w = (Raise ValueError, w).
Proof.
  intros Hne Ha Hlim.
  assert (Hsep : 95 ∉ a).
  { intros Hin. rewrite Forall_forall in Ha.
    apply Ha, is_digit_range in Hin. lia. }
  assert (Hlong : load_user (py "admin_" ++ a ++ py "_" ++ b) w =
    (let* admin := Admin_query_get (PyStr.decimal a) in
     ret (PAdmin <$> admin)) w).
  { rewrite load_user_admin.
    change (py "_" ++ b) with (95 :: b). rewrite (split_piece a b 95 Hsep).
    cbn [hd]. unfold int. by rewrite (py_int_decimal a Hne Ha Hlim). }
  split; [exact Hlong|]. split; [|reflexivity].
  rewrite Hlong, load_user_admin, (split_last_piece a 95 Hsep).
  cbn [hd]. unfold int. by rewrite (py_int_decimal a Hne Ha Hlim).
Qed.


(** ** The landing route and the 500 handler *)

(** C5.  Whatever the request, the landing view answers with a 302
    redirect to the URL of the endpoint [auth.choose], provided the
    authentication blueprint defines it; and any response the view
    returns is that redirect: its status is 302, never 200, and no
    template is rendered. *)
Theorem index_redirects_to_chooser (request : Request) (w : world) :
  (forall url,
      url_map (py "auth.choose") = Some url ->
      index request w =
        (Ok {| status := 302; location := Some url; rendered := None |},
         w)) /\
  (forall response w',
      index request w = (Ok response, w') ->
      status response = 302%Z /\
      status response <> 200%Z /\
      location response = url_map (py "auth.choose") /\
      rendered response = None /\
      w' = w).
Proof.
  unfold index, url_for, redirect, bind, ret, raise. split.
  - intros url ->. reflexivity.
  - intros response w' H.
    destruct (url_map (py "auth.choose")) as [url|]; [|discriminate].
    injection H as <- <-. cbn. done.
Qed.

(** C6.  The 500 handler rolls the session back and only then renders
    [errors/500.html], which it returns with status 500.  Afterwards the
    open transaction is back at the committed state, nothing is pending
    in the session, and the committed state is what it was. *)
Theorem internal_error_rolls_back (error : exn) (w : world) :
  exists w',
    internal_error error w =
      (Ok {| status := 500; location := None;
             rendered := Some (py "errors/500.html") |}, w') /\
    trace w' = trace w ++ [EvRollback; EvRender (py "errors/500.html")] /\
    committed w' = committed w /\
    txn w' = committed w /\
    session_new w' = [].
Proof.
  eexists. split; [reflexivity|]. cbn.
  rewrite <- app_assoc. done.
Qed.


(** ** Start-up seeding *)

Lemma find_filter {A} (p : A -> bool) (l : list A) :
  List.find p l = head (List.filter p l).
Proof.
  induction l as [|x l IH]; [done|]. cbn. by destruct (p x).
Qed.

Lemma admins_named_create_tables (name : pystr) (d : database) :
  admins_named name (create_tables d) = admins_named name d.
Proof. unfold admins_named, create_tables. cbn. by destruct (admin_table d). Qed.

(** Runs the operations of the factory as far as the next test on the
    rows, on the constraints or on the console. *)
Ltac run_startup :=
  cbv beta iota zeta delta
    [create_app seed_default_admin with_finally try_except is_OSError bind ret
     raise makedirs create_all Admin_query_filter_by_username_first flush
     session_remove session_commit session_add draw_password_hash
     register_blueprint log insert_all insert
     insert_entity table_of create_tables from_option id set_txn
     set_committed set_session_new set_instance_dir set_drawn set_stdout
     set_trace committed txn session_new instance_dir drawn stdout trace
     admin_table user_table assign_id default_admin Admin.id
     after_startup_present after_startup_absent after_makedirs seeded_admin
     seeded_database seed_hash seed_accepted registrations app_of
     session_idle admins_named fst snd];
  cbn [app].

Lemma create_app_present (config_class : ConfigClass) (w : world) :
  session_idle w ->
  admins_named (py "admin") (committed w) <> [] ->
  create_app config_class w =
    (Ok (app_of config_class), after_startup_present w).
Proof.
  destruct w as [[ca cu] t sn idir dr so tr].
  run_startup. intros [-> ->] Hnamed.
  destruct ca as [rows|]; [|done].
  assert (exists a, List.find (has_username (py "admin")) rows = Some a)
    as [a Hfind].
  { rewrite find_filter. destruct (List.filter _ rows); [done|]. eauto. }
  destruct idir, cu as [users|]; run_startup; rewrite Hfind;
    rewrite <- ?app_assoc; reflexivity.
Qed.

(** The lines written are those before the first that cannot be. *)
Lemma print_all_run (lines : list pystr) (w : world) :
  exists printed,
    print_all lines w =
      (if forallb (forallb stdout_encodes) lines
       then Ok tt else Raise UnicodeEncodeError,
       set_stdout (stdout w ++ printed) w) /\
    (forallb (forallb stdout_encodes) lines = true -> printed = lines).
Proof.
  revert w. induction lines as [|line lines IH]; intros w.
  - exists []. destruct w as [c t sn p dr so tr]. cbn.
    by rewrite app_nil_r.
  - cbn [print_all forallb]. unfold bind, print.
    destruct (forallb stdout_encodes line); cbn [andb].
    + destruct (IH (set_stdout (stdout w ++ [line]) w))
        as (printed & Hrun & Hall).
      exists (line :: printed). rewrite Hrun. split.
      * destruct w as [c t sn p dr so tr]. cbn.
        by rewrite <- app_assoc.
      * intros H. by rewrite (Hall H).
    + exists []. split; [|done].
      destruct w as [c t sn p dr so tr]. cbn. by rewrite app_nil_r.
Qed.

(** A start-up that finds no administrator called [admin] and whose row
    the database accepts: the row is stored, whatever becomes of the
    banner. *)
Lemma create_app_absent (config_class : ConfigClass) (w : world) :
  session_idle w ->
  admins_named (py "admin") (committed w) = [] ->
  seed_accepted w ->
  exists printed,
    create_app config_class w =
      (if banner_printable then Ok (app_of config_class)
       else Raise UnicodeEncodeError,
       after_startup_absent w printed banner_printable) /\
    (banner_printable = true -> printed = banner).
Proof.
  unfold banner_printable.
  destruct w as [[ca cu] t sn idir dr so tr].
  destruct idir, ca as [rows|], cu as [users|]; run_startup;
    intros [-> ->] Hnamed Hok; rewrite find_filter, Hnamed; cbn [head];
    run_startup; rewrite Hok; run_startup;
    match goal with
    | |- context [print_all banner ?W] =>
        destruct (print_all_run banner W) as (printed & Hrun & Hall);
        rewrite Hrun
    end;
    exists printed; (split; [|exact Hall]);
    destruct (forallb (forallb stdout_encodes) banner);
    run_startup; rewrite <- ?app_assoc; reflexivity.
Qed.

Lemma after_startup_present_idle (w : world) :
  session_idle (after_startup_present w).
Proof. done. Qed.

Lemma after_startup_absent_idle
  (w : world) (printed : list pystr) (returned : bool) :
  session_idle (after_startup_absent w printed returned).
Proof. done. Qed.

Lemma admin_rows_create_tables (d : database) :
  default [] (admin_table (create_tables d)) = default [] (admin_table d).
Proof. done. Qed.

Lemma admins_named_seeded (w : world) :
  admins_named (py "admin") (committed w) = [] ->
  admins_named (py "admin") (seeded_database w) = [seeded_admin w].
Proof.
  unfold admins_named. cbn -[py]. intros Hnamed.
  by rewrite List.filter_app, Hnamed.
Qed.

(** Once an administrator called [admin] is there, further start-ups
    leave the rows of the [Admin] table alone. *)
Lemma startups_present (config_class : ConfigClass) (n : nat) (w : world) :
  session_idle w ->
  admins_named (py "admin") (committed w) <> [] ->
  exists w',
    startups n config_class w = (Ok tt, w') /\
    w' = invocations n config_class w /\
    session_idle w' /\
    default [] (admin_table (committed w')) =
      default [] (admin_table (committed w)).
Proof.
  revert w. induction n as [|n IH]; intros w Hidle Hnamed.
  - by exists w.
  - cbn [startups invocations]. unfold bind.
    rewrite (create_app_present _ _ Hidle Hnamed). cbn [snd].
    destruct (IH (after_startup_present w))
      as (w' & Hrun & Hinv & Hidle' & Hrows).
    + apply after_startup_present_idle.
    + cbn [after_startup_present committed].
      by rewrite admins_named_create_tables.
    + exists w'. by rewrite Hrun, Hrows.
Qed.

(** C1.  Take [n >= 1] start-ups against the same database, begun with no
    transaction open, an instance path that exists or can be made, and a
    database that accepts the default row when no administrator is called
    [admin].  Whether each of them returns or raises after its commit, the
    [Admin] table is then the initial one, followed by the seeded row only
    if the first start-up found no administrator called [admin]: a row is
    inserted only when none is present, and at most once.  So, when at most
    one administrator was called [admin] to begin with, exactly one is
    afterwards.  When standard output can write the banner, all the
    start-ups return. *)
Theorem seeding_idempotent
  (config_class : ConfigClass) (n : nat) (w : world) :
  (0 < n)%nat ->
  session_idle w ->
  instance_dir w <> PathBlocked ->
  (admins_named (py "admin") (committed w) = [] -> seed_accepted w) ->
  default [] (admin_table (committed (invocations n config_class w))) =
    default [] (admin_table (committed w)) ++
      match admins_named (py "admin") (committed w) with
      | [] => [seeded_admin w]
      | _ :: _ => []
      end /\
  ((length (admins_named (py "admin") (committed w)) <= 1)%nat ->
   length (admins_named (py "admin")
             (committed (invocations n config_class w))) = 1%nat) /\
  (banner_printable = true ->
   startups n config_class w = (Ok tt, invocations n config_class w)).
Proof.
  intros Hn Hidle _ Hok.
  destruct n as [|n]; [lia|]. clear Hn.
  cbn [startups invocations]. unfold bind.
  destruct (admins_named (py "admin") (committed w)) as [|a named]
    eqn:Hnamed.
  - destruct (create_app_absent config_class w Hidle Hnamed (Hok eq_refl))
      as (printed & Hrun & Hall).
    rewrite Hrun. cbn [snd].
    pose proof (admins_named_seeded w Hnamed) as Hseeded.
    destruct (startups_present config_class n
                (after_startup_absent w printed banner_printable))
      as (w' & Hrest & <- & _ & Hrows).
    + apply after_startup_absent_idle.
    + cbn [after_startup_absent committed]. by rewrite Hseeded.
    + cbn [after_startup_absent committed] in Hrows.
      split; [by rewrite Hrows|]. split.
      * intros _. unfold admins_named in *. by rewrite Hrows, Hseeded.
      * intros Hprint. by rewrite Hprint in *.
  - assert (admins_named (py "admin") (committed w) <> []) as Hne
        by (by rewrite Hnamed).
    rewrite (create_app_present _ _ Hidle Hne). cbn [snd].
    destruct (startups_present config_class n (after_startup_present w))
      as (w' & Hrest & <- & _ & Hrows).
    + apply after_startup_present_idle.
    + cbn [after_startup_present committed].
      by rewrite admins_named_create_tables.
    + cbn [after_startup_present committed] in Hrows.
      rewrite admin_rows_create_tables in Hrows.
      split; [by rewrite Hrows, app_nil_r|]. split; [|done].
      intros Hone. unfold admins_named in *. rewrite Hrows, Hnamed.
      cbn in Hone |- *. lia.
Qed.

(** C3.  A start-up that finds no administrator called [admin], with an
    instance path that exists or can be made and a database that accepts
    the new row, appends to the [Admin] table exactly one row: username
    [admin], email [admin@banking.com], password the salted hash of
    [admin123], under the key the database gives it.  The [User] table
    gains nothing.  The row is added to the session, inserted and then
    committed, before anything is printed.  When standard output can write
    the banner, the banner is printed and the application returned;
    otherwise the start-up raises [UnicodeEncodeError], with the row
    stored all the same. *)
Theorem create_app_seeds_default_admin
  (config_class : ConfigClass) (w : world) :
  session_idle w ->
  instance_dir w <> PathBlocked ->
  admins_named (py "admin") (committed w) = [] ->
  seed_accepted w ->
  exists r w' printed rest,
    create_app config_class w = (r, w') /\
    admin_table (committed w') =
      Some (default [] (admin_table (committed w)) ++
            [{| Admin.id :=
                  Some (new_key
                          (omap Admin.id
                             (default [] (admin_table (committed w)))));
                Admin.username := py "admin";
                Admin.email := py "admin@banking.com";
                Admin.password :=
                  generate_password_hash (py "admin123")
                    (py "pbkdf2:sha256") (gen_salt (drawn w)) |}]) /\
    user_table (committed w') =
      Some (default [] (user_table (committed w))) /\
    trace w' =
      trace w
        ++ [EvCreateAll; EvSelect TAdmin;
            EvAdd (EAdmin (default_admin (seed_hash w)));
            EvInsert TAdmin; EvCommit]
        ++ rest /\
    stdout w' = stdout w ++ printed /\
    (banner_printable = true ->
     r = Ok (app_of config_class) /\ printed = banner) /\
    (banner_printable = false -> r = Raise UnicodeEncodeError).
Proof.
  intros Hidle _ Hnamed Hok.
  destruct (create_app_absent config_class w Hidle Hnamed Hok)
    as (printed & Hrun & Hall).
  eexists _, _, printed,
    (EvRemove :: if banner_printable then registrations else []).
  split; [exact Hrun|]. cbn -[py banner].
  split_and!; try done.
  - intros Hprint. rewrite Hprint. by split; [|apply Hall].
  - by intros ->.
Qed.

(** C10.  A start-up that finds an administrator called [admin] changes
    no row: the [Admin] table is left as it was, field for field, and the
    [User] table keeps its rows (it is created, empty, if it was
    missing).  Among the events of the start-up there is no commit,
    no insert and no addition to the session, nothing is printed and no
    salt is drawn. *)
Theorem create_app_frame (config_class : ConfigClass) (w : world) :
  session_idle w ->
  admins_named (py "admin") (committed w) <> [] ->
  exists w',
    create_app config_class w = (Ok (app_of config_class), w') /\
    admin_table (committed w') = admin_table (committed w) /\
    default [] (user_table (committed w')) =
      default [] (user_table (committed w)) /\
    trace w' =
      trace w ++ [EvCreateAll; EvSelect TAdmin; EvRemove] ++ registrations /\
    (EvCommit ∉ [EvCreateAll; EvSelect TAdmin; EvRemove] ++ registrations) /\
    stdout w' = stdout w /\
    drawn w' = drawn w.
Proof.
  intros Hidle Hnamed. exists (after_startup_present w).
  split; [by apply create_app_present|].
  split.
  { unfold admins_named in Hnamed. cbn.
    by destruct (admin_table (committed w)). }
  split; [done|]. split; [done|]. split; [|done].
  unfold registrations. cbn [app]. rewrite !not_elem_of_cons.
  repeat split; try discriminate. apply not_elem_of_nil.
Qed.

(** ** More on the principal loader *)

(** The loader when nothing is pending in the session, with its lookup
    carried out. *)
Lemma load_user_run (user_id : pystr) (w : world) :
  session_new w = [] ->
  if PyStr.startswith user_id (py "admin_") then
    exists segment,
      PyStr.split user_id 95 !! 1%nat = Some segment /\
      match py_int segment with
      | Some admin_id =>
          load_user user_id w =
            (match admin_table (txn w) with
             | Some rows =>
                 match key_error admin_id with
                 | Some e => Raise e
                 | None =>
                     Ok (PAdmin <$> List.find (has_admin_id admin_id) rows)
                 end
             | None => Raise OperationalError
             end,
             set_trace (trace w ++ [EvGet TAdmin admin_id]) w)
      | None => load_user user_id w = (Raise ValueError, w)
      end
  else
    match py_int user_id with
    | Some key =>
        load_user user_id w =
          (match user_table (txn w) with
           | Some rows =>
               match key_error key with
               | Some e => Raise e
               | None => Ok (PUser <$> List.find (has_user_id key) rows)
               end
           | None => Raise OperationalError
           end,
           set_trace (trace w ++ [EvGet TUser key]) w)
    | None => load_user user_id w = (Raise ValueError, w)
    end.
Proof.
  intros Hidle. pose proof (load_user_cases user_id w) as H.
  destruct (PyStr.startswith user_id (py "admin_")).
  - destruct H as (segment & Hseg & H). exists segment. split; [done|].
    destruct (py_int segment) as [admin_id|]; [|done].
    rewrite H. unfold bind. rewrite (Admin_query_get_idle _ _ Hidle).
    destruct (admin_table (txn w)); [|done].
    by destruct (key_error admin_id).
  - destruct (py_int user_id) as [key|]; [|done].
    rewrite H. unfold bind. rewrite (User_query_get_idle _ _ Hidle).
    destruct (user_table (txn w)); [|done].
    by destruct (key_error key).
Qed.

(** X1.  The loader never commits, prints or draws a salt, and it leaves
    the instance path alone: whatever the identifier and whatever is
    pending in the session, the committed database, the console, the salt
    counter and the instance path are after the call what they were
    before it.  With nothing pending in the session, the open transaction
    is left as it was too. *)
Theorem load_user_writes_nothing (user_id : pystr) (w : world) :
  committed (snd (load_user user_id w)) = committed w /\
  stdout (snd (load_user user_id w)) = stdout w /\
  drawn (snd (load_user user_id w)) = drawn w /\
  instance_dir (snd (load_user user_id w)) = instance_dir w /\
  (session_new w = [] ->
   txn (snd (load_user user_id w)) = txn w /\
   session_new (snd (load_user user_id w)) = []).
Proof.
  pose proof (load_user_cases user_id w) as H.
  destruct (PyStr.startswith user_id (py "admin_")).
  - destruct H as (segment & Hseg & H).
    destruct (py_int segment) as [admin_id|] eqn:Hint.
    + rewrite H, bind_ret_snd.
      destruct (Admin_query_get_frame admin_id w)
        as (Hc & Hs & Hi & Hd & Ho & _).
      split_and!; try done. intros Hidle.
      by rewrite (Admin_query_get_idle _ _ Hidle).
    + by rewrite H.
  - destruct (py_int user_id) as [key|] eqn:Hint.
    + rewrite H, bind_ret_snd.
      destruct (User_query_get_frame key w)
        as (Hc & Hs & Hi & Hd & Ho & _).
      split_and!; try done. intros Hidle.
      by rewrite (User_query_get_idle _ _ Hidle).
    + by rewrite H.
Qed.

(** X2.  With nothing pending in the session the loader raises in three
    ways only.  [ValueError] comes from [int], before any lookup, and
    leaves the world as it was.  [OperationalError] comes from a lookup in
    a table that was never created.  The third is the exception with which
    the database driver refuses the key.  The index [1] into the pieces of
    an [admin_] identifier is always in range. *)
Theorem load_user_raises_only
  (user_id : pystr) (w w' : world) (e : exn) :
  session_new w = [] ->
  load_user user_id w = (Raise e, w') ->
  (e = ValueError /\ w' = w) \/
  (e = OperationalError /\
   if PyStr.startswith user_id (py "admin_")
   then admin_table (txn w) = None
   else user_table (txn w) = None) \/
  (exists key, key_error key = Some e).
Proof.
  intros Hidle Hrun. pose proof (load_user_run user_id w Hidle) as H.
  destruct (PyStr.startswith user_id (py "admin_")).
  - destruct H as (segment & _ & H).
    destruct (py_int segment) as [key|]; rewrite H in Hrun.
    + destruct (admin_table (txn w)).
      * destruct (key_error key) as [e'|] eqn:Hkey; [|discriminate].
        injection Hrun as <- <-. right. right. by exists key.
      * injection Hrun as <- <-. right. by left.
    + injection Hrun as <- <-. by left.
  - destruct (py_int user_id) as [key|]; rewrite H in Hrun.
    + destruct (user_table (txn w)).
      * destruct (key_error key) as [e'|] eqn:Hkey; [|discriminate].
        injection Hrun as <- <-. right. right. by exists key.
      * injection Hrun as <- <-. right. by left.
    + injection Hrun as <- <-. by left.
Qed.

Lemma Admin_query_get_found (key : Z) (w w' : world) (a : Admin.t) :
  Admin_query_get key w = (Ok (Some a), w') ->
  key_error key = None /\
  Admin.id a = Some key /\
  exists rows, admin_table (txn w') = Some rows /\ a ∈ rows.
Proof.
  unfold Admin_query_get, bind, log.
  destruct (flush w) as [[[]|ex] w1]; [|discriminate]. cbn.
  destruct (admin_table (txn w1)) as [rows|] eqn:Hrows; [|discriminate].
  destruct (key_error key); [discriminate|].
  destruct (List.find (has_admin_id key) rows) as [a'|] eqn:Hfind;
    [|discriminate].
  intros H. injection H as -> <-.
  apply List.find_some in Hfind as [Hin Hid].
  split; [done|]. split; [by apply bool_decide_eq_true in Hid|].
  exists rows. split; [done|]. by apply list_elem_of_In.
Qed.

Lemma User_query_get_found (key : Z) (w w' : world) (u : User.t) :
  User_query_get key w = (Ok (Some u), w') ->
  key_error key = None /\
  User.id u = Some key /\
  exists rows, user_table (txn w') = Some rows /\ u ∈ rows.
Proof.
  unfold User_query_get, bind, log.
  destruct (flush w) as [[[]|ex] w1]; [|discriminate]. cbn.
  destruct (user_table (txn w1)) as [rows|] eqn:Hrows; [|discriminate].
  destruct (key_error key); [discriminate|].
  destruct (List.find (has_user_id key) rows) as [u'|] eqn:Hfind;
    [|discriminate].
  intros H. injection H as -> <-.
  apply List.find_some in Hfind as [Hin Hid].
  split; [done|]. split; [by apply bool_decide_eq_true in Hid|].
  exists rows. split; [done|]. by apply list_elem_of_In.
Qed.

(** X3.  A principal the loader returns is a row of the table its
    identifier points at, as that table stands in the transaction after
    the call, and the primary key of the row is the integer read from the
    identifier: an [admin_] identifier never yields a [User], nor a bare
    one an [Admin]. *)
Theorem load_user_returns_requested_row
  (user_id : pystr) (w w' : world) (p : principal) :
  load_user user_id w = (Ok (Some p), w') ->
  if PyStr.startswith user_id (py "admin_") then
    exists segment key admin rows,
      PyStr.split user_id 95 !! 1%nat = Some segment /\
      py_int segment = Some key /\
      p = PAdmin admin /\
      Admin.id admin = Some key /\
      admin_table (txn w') = Some rows /\
      admin ∈ rows
  else
    exists key user rows,
      py_int user_id = Some key /\
      p = PUser user /\
      User.id user = Some key /\
      user_table (txn w') = Some rows /\
      user ∈ rows.
Proof.
  intros Hrun. pose proof (load_user_cases user_id w) as H.
  destruct (PyStr.startswith user_id (py "admin_")).
  - destruct H as (segment & Hseg & H).
    destruct (py_int segment) as [key|] eqn:Hint; rewrite H in Hrun;
      [|discriminate].
    unfold bind in Hrun.
    destruct (Admin_query_get key w) as [[[admin|]|ex] w1] eqn:Hget;
      try discriminate.
    injection Hrun as <- <-.
    destruct (Admin_query_get_found _ _ _ _ Hget)
      as (_ & Hid & rows & Hrows & Hin).
    by exists segment, key, admin, rows.
  - destruct (py_int user_id) as [key|] eqn:Hint; rewrite H in Hrun;
      [|discriminate].
    unfold bind in Hrun.
    destruct (User_query_get key w) as [[[user|]|ex] w1] eqn:Hget;
      try discriminate.
    injection Hrun as <- <-.
    destruct (User_query_get_found _ _ _ _ Hget)
      as (_ & Hid & rows & Hrows & Hin).
    by exists key, user, rows.
Qed.

Lemma find_none_of_no_match {A} (p : A -> bool) (l : list A) :
  (forall x, x ∈ l -> p x = false) -> List.find p l = None.
Proof.
  induction l as [|x l IH]; intros Hno; [done|]. cbn.
  rewrite (Hno x) by apply list_elem_of_here.
  apply IH. intros y Hy. apply Hno. by apply list_elem_of_further.
Qed.

(** X4.  A well-formed identifier whose key the driver accepts and no row
    carries is no error: with nothing pending in the session, the loader
    returns [None], for an administrator and for a user alike. *)
Theorem load_user_unknown_key_is_None (user_id : pystr) (w : world) :
  session_new w = [] ->
  (forall segment key rows,
      PyStr.startswith user_id (py "admin_") = true ->
      PyStr.split user_id 95 !! 1%nat = Some segment ->
      py_int segment = Some key ->
      key_error key = None ->
      admin_table (txn w) = Some rows ->
      (forall admin, admin ∈ rows -> Admin.id admin <> Some key) ->
      fst (load_user user_id w) = Ok None) /\
  (forall key rows,
      PyStr.startswith user_id (py "admin_") = false ->
      py_int user_id = Some key ->
      key_error key = None ->
      user_table (txn w) = Some rows ->
      (forall user, user ∈ rows -> User.id user <> Some key) ->
      fst (load_user user_id w) = Ok None).
Proof.
  intros Hidle. pose proof (load_user_run user_id w Hidle) as H. split.
  - intros segment key rows Hprefix Hseg Hint Hkey Hrows Hno.
    rewrite Hprefix in H. destruct H as (segment' & Hseg' & H).
    rewrite Hseg in Hseg'. injection Hseg' as <-.
    rewrite Hint, Hrows, Hkey in H. rewrite H. cbn.
    rewrite find_none_of_no_match; [done|].
    intros admin Hin. apply bool_decide_eq_false. by apply Hno.
  - intros key rows Hprefix Hint Hkey Hrows Hno.
    rewrite Hprefix, Hint, Hrows, Hkey in H. rewrite H. cbn.
    rewrite find_none_of_no_match; [done|].
    intros user Hin. apply bool_decide_eq_false. by apply Hno.
Qed.

(** ** Identifiers that [int] accepts beyond plain digit runs *)

Lemma exceeds_max_str_digits_fewer (n m : nat) :
  (n <= m)%nat ->
  PyStr.exceeds_max_str_digits int_max_str_digits m = false ->
  PyStr.exceeds_max_str_digits int_max_str_digits n = false.
Proof.
  unfold PyStr.exceeds_max_str_digits. intros Hle Hm.
  apply not_true_iff_false. intros Hn. apply not_true_iff_false in Hm.
  apply Hm. apply andb_true_iff in Hn as [Hn H3].
  apply andb_true_iff in Hn as [H1 H2].
  apply Nat.ltb_lt in H1, H3. rewrite H2, andb_true_r.
  apply andb_true_iff. split; apply Nat.ltb_lt; lia.
Qed.

Lemma scan_digits_run (a rest : pystr) (prev_us : bool) (digits : nat)
  (acc : Z) :
  all_digits a ->
  PyStr.scan_digits (a ++ rest) prev_us digits acc =
    PyStr.scan_digits rest
      (match a with [] => prev_us | _ :: _ => false end)
      (digits + length a)
      (fold_left (fun acc c => (10 * acc + Z.of_N (c - 48))%Z) a acc).
Proof.
  intros Ha. revert prev_us digits acc.
  induction Ha as [|c a Hc _ IH]; intros prev_us digits acc; cbn.
  - by rewrite Nat.add_0_r.
  - rewrite Hc, IH. replace (S digits + length a)%nat
      with (digits + S (length a))%nat by lia.
    by destruct a.
Qed.

Lemma scan_digits_nonempty (a : pystr) (prev_us : bool) (digits : nat)
  (acc : Z) :
  a <> [] -> all_digits a ->
  PyStr.scan_digits a prev_us digits acc =
    Some (fold_left (fun acc c => (10 * acc + Z.of_N (c - 48))%Z) a acc,
          (digits + length a)%nat, []).
Proof.
  intros Hne Ha.
  pose proof (scan_digits_run a [] prev_us digits acc Ha) as H.
  rewrite app_nil_r in H. rewrite H. by destruct a.
Qed.

Lemma digits_not_prefixed (a : pystr) :
  a <> [] -> all_digits a -> PyStr.startswith a (py "admin_") = false.
Proof.
  intros Hne Ha. destruct a as [|c a]; [done|].
  apply Forall_inv in Ha.
  change (py "admin_") with (97 :: py "dmin_"). cbn [PyStr.startswith].
  by rewrite (digit_not c 97 Ha) by lia.
Qed.

Lemma load_user_bare (user_id : pystr) (w : world) :
  PyStr.startswith user_id (py "admin_") = false ->
  load_user user_id w =
    (let* key := int user_id in
     let* user := User_query_get key in
     ret (PUser <$> user)) w.
Proof. intros H. unfold load_user. by rewrite H. Qed.

(** Two digit runs with one underscore between them are read as the
    number whose digits are those of both. *)
Lemma py_int_grouped (a b : pystr) :
  a <> [] -> b <> [] -> all_digits a -> all_digits b ->
  PyStr.exceeds_max_str_digits int_max_str_digits (length a + length b)
    = false ->
  py_int (a ++ 95 :: b) = Some (PyStr.decimal (a ++ b)).
Proof.
  intros Hna Hnb Ha Hb Hlim.
  unfold PyStr.py_int, PyStr.TransformDecimalAndSpaceToASCII.
  assert (forallb (fun c => c <? 128) (a ++ 95 :: b) = true) as ->.
  { rewrite forallb_app. cbn. by rewrite !digits_ascii. }
  destruct a as [|c a]; [done|]. clear Hna.
  pose proof (Forall_inv Ha) as Hc. cbn beta in Hc.
  unfold PyStr.PyLong_FromString. rewrite <- app_comm_cons.
  cbn [PyStr.skip_space]. rewrite (digit_not_space c Hc).
  cbn [PyStr.read_sign].
  rewrite !(digit_not c) by (done || lia).
  rewrite app_comm_cons, (scan_digits_run (c :: a) (95 :: b) false 0 0 Ha).
  cbn [PyStr.scan_digits].
  assert (PyStr.is_digit 95 = false) as -> by reflexivity.
  rewrite N.eqb_refl.
  rewrite (scan_digits_nonempty b true _ _ Hnb Hb).
  cbn [Nat.add length] in Hlim |- *. rewrite Hlim.
  cbn [Nat.eqb PyStr.skip_space].
  unfold PyStr.decimal. by rewrite fold_left_app.
Qed.

(** A sign or a blank before a digit run. *)
Lemma py_int_prefixed (a : pystr) :
  a <> [] -> all_digits a ->
  PyStr.exceeds_max_str_digits int_max_str_digits (length a) = false ->
  py_int (43 :: a) = Some (PyStr.decimal a) /\
  py_int (45 :: a) = Some (- PyStr.decimal a)%Z /\
  py_int (32 :: a) = Some (PyStr.decimal a).
Proof.
  intros Hne Ha Hlim.
  pose proof (py_int_decimal a Hne Ha Hlim) as Hplain.
  unfold PyStr.py_int, PyStr.TransformDecimalAndSpaceToASCII in *.
  cbn [forallb]. rewrite (digits_ascii a Ha) in *.
  assert ((43 <? 128) = true) as -> by reflexivity.
  assert ((45 <? 128) = true) as -> by reflexivity.
  assert ((32 <? 128) = true) as -> by reflexivity.
  cbn [andb].
  destruct a as [|c a]; [done|]. clear Hne.
  pose proof (Forall_inv Ha) as Hc. cbn beta in Hc.
  unfold PyStr.PyLong_FromString in *.
  assert (PyStr.Py_ISSPACE 43 = false) as H43 by reflexivity.
  assert (PyStr.Py_ISSPACE 45 = false) as H45 by reflexivity.
  assert (PyStr.Py_ISSPACE 32 = true) as H32 by reflexivity.
  cbn [PyStr.skip_space] in *. rewrite H43, H45, H32.
  rewrite (digit_not_space c Hc) in *.
  cbn [PyStr.read_sign] in *.
  assert ((43 =? 43) = true) as -> by reflexivity.
  assert ((45 =? 43) = false) as -> by reflexivity.
  assert ((45 =? 45) = true) as -> by reflexivity.
  rewrite !(digit_not c) in * by (done || lia).
  rewrite (scan_digits_all (c :: a) 0 0 Ha) in *.
  cbn [Nat.add] in *. rewrite Hlim in *. cbn in *. done.
Qed.

(** X5.  Without the prefix the whole identifier goes to [int], which
    lets one underscore stand between digits: [<a>_<b>] is looked up in
    the [User] table under the number written [<a><b>], where the same
    pieces after [admin_] are looked up under [<a>] alone. *)
Theorem load_user_bare_underscore (a b : pystr) (w : world) :
  a <> [] -> b <> [] -> all_digits a -> all_digits b ->
  PyStr.exceeds_max_str_digits int_max_str_digits (length a + length b)
    = false ->
  load_user (a ++ py "_" ++ b) w =
    (let* user := User_query_get (PyStr.decimal (a ++ b)) in
     ret (PUser <$> user)) w /\
  load_user (py "admin_" ++ a ++ py "_" ++ b) w =
    (let* admin := Admin_query_get (PyStr.decimal a) in
     ret (PAdmin <$> admin)) w.
Proof.
  intros Hna Hnb Ha Hb Hlim. split.
  - rewrite load_user_bare.
    + change (py "_" ++ b) with (95 :: b). unfold int at 1.
      by rewrite (py_int_grouped a b Hna Hnb Ha Hb Hlim).
    + destruct a as [|c a]; [done|]. apply Forall_inv in Ha.
      change (py "admin_") with (97 :: py "dmin_").
      rewrite <- app_comm_cons. cbn [PyStr.startswith].
      by rewrite (digit_not c 97 Ha) by lia.
  - assert (Hsep : 95 ∉ a).
    { intros Hin. rewrite Forall_forall in Ha.
      apply Ha, is_digit_range in Hin. lia. }
    rewrite load_user_admin.
    change (py "_" ++ b) with (95 :: b). rewrite (split_piece a b 95 Hsep).
    cbn [hd]. unfold int at 1.
    rewrite (py_int_decimal a Hna Ha); [done|].
    apply (exceeds_max_str_digits_fewer _ (length a + length b)); [lia|done].
Qed.

(** X6.  Identifiers are not canonical: a plus sign, a blank or a zero
    before a digit run changes nothing in what the loader does. *)
Theorem load_user_aliases (a : pystr) (w : world) :
  a <> [] -> all_digits a ->
  PyStr.exceeds_max_str_digits int_max_str_digits (S (length a)) = false ->
  load_user (py "+" ++ a) w = load_user a w /\
  load_user (py " " ++ a) w = load_user a w /\
  load_user (py "0" ++ a) w = load_user a w.
Proof.
  intros Hne Ha Hlim.
  assert (Hlim' :
    PyStr.exceeds_max_str_digits int_max_str_digits (length a) = false)
    by (apply (exceeds_max_str_digits_fewer _ (S (length a))); [lia|done]).
  destruct (py_int_prefixed a Hne Ha Hlim') as (Hplus & _ & Hblank).
  pose proof (py_int_decimal a Hne Ha Hlim') as Hplain.
  assert (Hzero : py_int (48 :: a) = Some (PyStr.decimal a)).
  { rewrite (py_int_decimal (48 :: a)); [done|done| |done].
    by apply Forall_cons. }
  rewrite (load_user_bare a) by by apply digits_not_prefixed.
  rewrite !load_user_bare by reflexivity.
  change (py "+" ++ a) with (43 :: a). change (py " " ++ a) with (32 :: a).
  change (py "0" ++ a) with (48 :: a).
  unfold int. by rewrite Hplus, Hblank, Hzero, Hplain.
Qed.

(** X7.  A minus sign is accepted as well: the loader then looks up the
    negative key, in either table. *)
Theorem load_user_negative_key (a : pystr) (w : world) :
  a <> [] -> all_digits a ->
  PyStr.exceeds_max_str_digits int_max_str_digits (length a) = false ->
  load_user (py "-" ++ a) w =
    (let* user := User_query_get (- PyStr.decimal a) in
     ret (PUser <$> user)) w /\
  load_user (py "admin_-" ++ a) w =
    (let* admin := Admin_query_get (- PyStr.decimal a) in
     ret (PAdmin <$> admin)) w.
Proof.
  intros Hne Ha Hlim.
  destruct (py_int_prefixed a Hne Ha Hlim) as (_ & Hminus & _). split.
  - rewrite load_user_bare by reflexivity.
    change (py "-" ++ a) with (45 :: a). unfold int. by rewrite Hminus.
  - change (py "admin_-" ++ a) with (py "admin_" ++ 45 :: a).
    rewrite load_user_admin.
    assert (Hsep : 95 ∉ 45 :: a).
    { apply not_elem_of_cons. split; [done|].
      intros Hin. rewrite Forall_forall in Ha.
      apply Ha, is_digit_range in Hin. lia. }
    rewrite (split_last_piece _ 95 Hsep). cbn [hd].
    unfold int. by rewrite Hminus.
Qed.

(** ** More on the factory *)

(** X8.  Whether the instance directory is there already or is made now
    makes no difference: the [OSError] that [os.makedirs] raises for a
    directory that exists is swallowed, and the factory goes on exactly as
    it does after making the directory, to the same result and the same
    world. *)
Theorem create_app_ignores_instance_dir
  (config_class : ConfigClass) (w : world) :
  create_app config_class (set_instance_dir PathDirectory w) =
    create_app config_class (set_instance_dir PathAbsent w).
Proof. destruct w as [c t sn idir dr so tr]. reflexivity. Qed.

(** X9.  When no administrator is called [admin] and the database refuses
    the default row, the factory raises [IntegrityError] instead of
    returning an application.  The tables have been created, but no row is
    stored, nothing is printed, no blueprint is registered, and the
    session is left with nothing pending. *)
Theorem create_app_rejected_seed (config_class : ConfigClass) (w : world) :
  session_idle w ->
  admins_named (py "admin") (committed w) = [] ->
  constraints_ok (create_tables (committed w))
    (EAdmin (default_admin (seed_hash w))) = false ->
  exists w',
    create_app config_class w = (Raise IntegrityError, w') /\
    committed w' = create_tables (committed w) /\
    session_idle w' /\
    stdout w' = stdout w /\
    trace w' =
      trace w ++ [EvCreateAll; EvSelect TAdmin;
                  EvAdd (EAdmin (default_admin (seed_hash w))); EvRemove].
Proof.
  destruct w as [[ca cu] t sn idir dr so tr].
  destruct idir, ca as [rows|], cu as [users|]; run_startup;
    intros [-> ->] Hnamed Hno; rewrite find_filter, Hnamed; cbn [head];
    run_startup; rewrite Hno; run_startup;
    (eexists; split; [reflexivity|]); cbn; rewrite <- ?app_assoc; done.
Qed.

(** *** What every start-up establishes *)

Lemma preserves_bind {A B} (P : world -> Prop) (m : M A) (k : A -> M B) :
  preserves P m -> (forall a, preserves P (k a)) -> preserves P (bind m k).
Proof.
  intros Hm Hk w HP. unfold bind. specialize (Hm w HP).
  destruct (m w) as [[a|e] w']; [by apply Hk|done].
Qed.

Lemma preserves_ret {A} (P : world -> Prop) (a : A) : preserves P (ret a).
Proof. by intros w HP. Qed.

Lemma started_log (e : event) : preserves started (log e).
Proof. by intros w HP. Qed.

Lemma started_print_all (lines : list pystr) :
  preserves started (print_all lines).
Proof.
  induction lines as [|line lines IH]; [apply preserves_ret|].
  apply preserves_bind; [|done]. intros w HP. unfold print.
  by destruct (forallb stdout_encodes line).
Qed.

Lemma insert_entity_has_tables (d d' : database) (e : entity) :
  has_tables d -> insert_entity d e = Ok d' -> has_tables d'.
Proof.
  intros [Ha Hu] H. unfold insert_entity in H.
  destruct e as [a|u].
  - destruct (admin_table d); [|done].
    destruct (constraints_ok d (EAdmin a)); [|done].
    injection H as <-. by split.
  - destruct (user_table d); [|done].
    destruct (constraints_ok d (EUser u)); [|done].
    injection H as <-. by split.
Qed.

Lemma started_insert (e : entity) : preserves started (insert e).
Proof.
  intros w HP. unfold insert.
  destruct (insert_entity (txn w) e) as [d|ex] eqn:H; [|done].
  destruct HP as (Hc & Ht).
  pose proof (insert_entity_has_tables _ _ _ Ht H) as Hd.
  unfold started. cbn. done.
Qed.

Lemma started_insert_all (l : list entity) : preserves started (insert_all l).
Proof.
  induction l as [|e l IH]; [apply preserves_ret|].
  apply preserves_bind; [apply started_insert|done].
Qed.

Lemma started_flush : preserves started flush.
Proof.
  intros w HP. unfold flush.
  assert (started (set_session_new [] w)) as HP' by done.
  pose proof (started_insert_all (session_new w) _ HP') as H.
  destruct (insert_all (session_new w) (set_session_new [] w))
    as [[[]|ex] w']; cbn in *; [done|].
  destruct H as (Hc & Ht). unfold started. cbn. done.
Qed.

Lemma started_session_commit : preserves started session_commit.
Proof.
  apply preserves_bind; [apply started_flush|]. intros _.
  apply preserves_bind; [|intros _; apply started_log].
  intros w (Hc & Ht). unfold started. cbn. done.
Qed.

Lemma started_query (name : pystr) :
  preserves started (Admin_query_filter_by_username_first name).
Proof.
  apply preserves_bind; [apply started_flush|]. intros _.
  apply preserves_bind; [apply started_log|]. intros _ w HP.
  by destruct (admin_table (txn w)).
Qed.

Lemma started_seed_default_admin (w : world) :
  started (snd (seed_default_admin w)).
Proof.
  unfold seed_default_admin.
  set (rest := fun _ : unit => _).
  assert (preserves started (rest tt)) as Hrest.
  { apply preserves_bind; [apply started_query|]. intros [a|].
    - apply preserves_ret.
    - apply preserves_bind; [by intros w' HP|]. intros hash.
      apply preserves_bind.
      { apply preserves_bind; [apply started_log|]. by intros _ w' HP. }
      intros _. apply preserves_bind; [apply started_session_commit|].
      intros _. apply started_print_all. }
  unfold bind, create_all, log. cbn. apply Hrest.
  repeat split; cbn; eauto.
Qed.

Lemma makedirs_swallowed (w : world) :
  try_except makedirs is_OSError (ret tt) w =
    (Ok tt, set_instance_dir (after_makedirs (instance_dir w)) w).
Proof. destruct w as [c t sn idir dr so tr]. by destruct idir. Qed.

(** The seeding step leaves the instance path alone. *)
Lemma seed_default_admin_instance_dir (w : world) :
  instance_dir (snd (seed_default_admin w)) = instance_dir w.
Proof.
  set (P := fun w' => instance_dir w' = instance_dir w).
  assert (forall A (m : M A), preserves P m -> P (snd (m w))) as Huse.
  { intros A m Hm. by apply Hm. }
  apply Huse. clear Huse.
  assert (forall e, preserves P (log e)) as Hlog by (by intros e w' HP).
  assert (preserves P flush) as Hflush.
  { intros w' HP. destruct (flush_frame w') as (_ & _ & Hi & _).
    unfold P in *. by rewrite Hi. }
  unfold seed_default_admin.
  apply preserves_bind.
  { apply preserves_bind; [apply Hlog|]. by intros _ w' HP. }
  intros _. apply preserves_bind.
  { apply preserves_bind; [apply Hflush|]. intros _.
    apply preserves_bind; [apply Hlog|]. intros _ w' HP.
    by destruct (admin_table (txn w')). }
  intros [a|]; [apply preserves_ret|].
  apply preserves_bind; [by intros w' HP|]. intros hash.
  apply preserves_bind.
  { apply preserves_bind; [apply Hlog|]. by intros _ w' HP. }
  intros _. apply preserves_bind.
  { apply preserves_bind; [apply Hflush|]. intros _.
    apply preserves_bind; [by intros w' HP|]. intros _. apply Hlog. }
  intros _. generalize banner. intros lines.
  induction lines as [|line lines IH]; [apply preserves_ret|].
  apply preserves_bind; [|done]. intros w' HP. unfold print.
  by destruct (forallb stdout_encodes line).
Qed.

(** Where the factory leaves the database and the session, in terms of
    where the seeding step left them. *)
Lemma create_app_final
  (config_class : ConfigClass) (w w' : world) (r : result Flask) :
  create_app config_class w = (r, w') ->
  committed w' =
    committed (snd (seed_default_admin
                      (set_instance_dir (after_makedirs (instance_dir w)) w)))
  /\ txn w' = committed w'
  /\ session_new w' = []
  /\ instance_dir w' = after_makedirs (instance_dir w).
Proof.
  intros H. unfold create_app in H. unfold bind at 1 in H.
  rewrite makedirs_swallowed in H.
  pose proof (seed_default_admin_instance_dir
                (set_instance_dir (after_makedirs (instance_dir w)) w))
    as Hdir.
  unfold bind, with_finally, session_remove, bind, log, register_blueprint,
    ret in H.
  destruct (seed_default_admin
              (set_instance_dir (after_makedirs (instance_dir w)) w))
    as [[[]|e] w2];
    cbn -[py] in H, Hdir; injection H as <- <-; cbn; by rewrite Hdir.
Qed.

(** X10.  Whatever is pending in the session it starts from, and whether
    it returns or raises, a start-up whose instance path exists or can be
    made leaves both tables created, the instance directory in place and
    nothing pending in the session.  So the loader, called afterwards,
    raises nothing but the [ValueError] of a malformed identifier or the
    exception with which the database driver refuses a key. *)
Theorem create_app_establishes (config_class : ConfigClass) (w : world) :
  instance_dir w <> PathBlocked ->
  has_tables (committed (snd (create_app config_class w))) /\
  instance_dir (snd (create_app config_class w)) = PathDirectory /\
  session_idle (snd (create_app config_class w)) /\
  (forall user_id e w',
      load_user user_id (snd (create_app config_class w)) = (Raise e, w') ->
      e = ValueError \/ exists key, key_error key = Some e).
Proof.
  intros Hpath.
  destruct (create_app config_class w) as [r w1] eqn:Hrun1. cbn [snd].
  destruct (create_app_final config_class w w1 r Hrun1)
    as (Hc & Ht & Hs & Hi).
  destruct (started_seed_default_admin
              (set_instance_dir (after_makedirs (instance_dir w)) w))
    as ((Hadmins & Husers) & _).
  rewrite <- Hc in Hadmins, Husers.
  split; [done|].
  split; [rewrite Hi; by destruct (instance_dir w)|].
  split; [done|].
  intros user_id e w' Hrun.
  pose proof (load_user_run user_id w1 Hs) as H. rewrite Ht in H.
  destruct Hadmins as [admins Hadmins], Husers as [users Husers].
  rewrite Hadmins, Husers in H.
  destruct (PyStr.startswith user_id (py "admin_")).
  - destruct H as (segment & _ & H).
    destruct (py_int segment) as [key|]; rewrite H in Hrun.
    + destruct (key_error key) eqn:Hkey; [|discriminate].
      injection Hrun as <- _. right. by exists key.
    + injection Hrun as <- _. by left.
  - destruct (py_int user_id) as [key|]; rewrite H in Hrun.
    + destruct (key_error key) eqn:Hkey; [|discriminate].
      injection Hrun as <- _. right. by exists key.
    + injection Hrun as <- _. by left.
Qed.

(** *** The seeded administrator can be loaded *)

Lemma find_appended (rows : list Admin.t) (row : Admin.t) (key : Z) :
  Admin.id row = Some key ->
  (forall a, a ∈ rows -> Admin.id a <> Some key) ->
  List.find (has_admin_id key) (rows ++ [row]) = Some row.
Proof.
  intros Hrow Hrows. induction rows as [|a rows IH]; cbn.
  - unfold has_admin_id. by rewrite bool_decide_eq_true_2.
  - unfold has_admin_id at 1. rewrite bool_decide_eq_false_2.
    + apply IH. intros a' Ha'. apply Hrows. by apply list_elem_of_further.
    + apply Hrows. apply list_elem_of_here.
Qed.

(** X11.  After a start-up that stored the default administrator under a
    key that was not in use and that the driver accepts, the loader finds
    that very row under every [admin_] identifier whose second piece
    [int] reads as the key, whether the start-up went on to return or
    raised at the banner. *)
Theorem seeded_admin_is_loaded
  (config_class : ConfigClass) (w : world) (s : pystr) (key : Z) :
  session_idle w ->
  instance_dir w <> PathBlocked ->
  admins_named (py "admin") (committed w) = [] ->
  seed_accepted w ->
  new_key (omap Admin.id (default [] (admin_table (committed w)))) = key ->
  key ∉ omap Admin.id (default [] (admin_table (committed w))) ->
  key_error key = None ->
  95 ∉ s ->
  py_int s = Some key ->
  fst (load_user (py "admin_" ++ s) (snd (create_app config_class w))) =
    Ok (Some (PAdmin (seeded_admin w))).
Proof.
  intros Hidle _ Hnamed Hok Hnew Hfresh Hkey Hsep Hint.
  destruct (create_app_absent config_class w Hidle Hnamed Hok)
    as (printed & Hrun & _).
  rewrite Hrun. cbn [snd].
  rewrite load_user_admin, (split_last_piece s 95 Hsep). cbn [hd].
  unfold int, bind. rewrite Hint. unfold ret at 1.
  rewrite Admin_query_get_idle by done.
  cbn [after_startup_absent seeded_database txn admin_table].
  rewrite Hkey, find_appended; [done| |].
  - unfold seeded_admin. cbn. by rewrite Hnew.
  - intros a Ha Hid. apply Hfresh. apply list_elem_of_omap. by exists a.
Qed.

(** *** Start-ups in a row *)

Lemma create_tables_has_tables (d : database) :
  has_tables d -> create_tables d = d.
Proof.
  destruct d as [[a|] [u|]]; intros [[? Ha] [? Hu]]; done.
Qed.

(** Start-ups that find an administrator called [admin] in a database
    that has its tables change neither the database nor the console, and
    draw no salt. *)
Lemma startups_present_world
  (config_class : ConfigClass) (n : nat) (w : world) :
  session_idle w ->
  has_tables (committed w) ->
  admins_named (py "admin") (committed w) <> [] ->
  exists w',
    startups n config_class w = (Ok tt, w') /\
    committed w' = committed w /\
    stdout w' = stdout w /\
    drawn w' = drawn w.
Proof.
  revert w. induction n as [|n IH]; intros w Hidle Htables Hnamed.
  - by exists w.
  - cbn [startups]. unfold bind.
    rewrite (create_app_present _ _ Hidle Hnamed).
    destruct (IH (after_startup_present w)) as (w' & Hrun & Hc & Ho & Hd).
    + apply after_startup_present_idle.
    + cbn [after_startup_present committed].
      by rewrite create_tables_has_tables.
    + cbn [after_startup_present committed].
      by rewrite admins_named_create_tables.
    + exists w'. split; [done|].
      cbn [after_startup_present committed stdout drawn] in Hc, Ho, Hd.
      by rewrite Hc, create_tables_has_tables.
Qed.

(** X12.  Where standard output can write the banner, starting up again
    and again is the same as starting up once, as far as the database,
    the console and the random source go: the first start-up stores the
    administrator, prints the banner and draws the one salt, and the later
    ones print nothing, draw nothing and store nothing. *)
Theorem startups_like_one
  (config_class : ConfigClass) (n : nat) (w : world) :
  session_idle w ->
  instance_dir w <> PathBlocked ->
  admins_named (py "admin") (committed w) = [] ->
  seed_accepted w ->
  banner_printable = true ->
  exists w1 wn,
    create_app config_class w = (Ok (app_of config_class), w1) /\
    startups (S n) config_class w = (Ok tt, wn) /\
    committed wn = committed w1 /\
    stdout wn = stdout w ++ banner /\
    drawn wn = S (drawn w).
Proof.
  intros Hidle _ Hnamed Hok Hprint.
  destruct (create_app_absent config_class w Hidle Hnamed Hok)
    as (printed & Hrun & Hall).
  rewrite Hprint in Hrun. rewrite (Hall Hprint) in Hrun.
  destruct (startups_present_world config_class n
              (after_startup_absent w banner true))
    as (wn & Hrest & Hc & Ho & Hd).
  - apply after_startup_absent_idle.
  - split; cbn; eauto.
  - cbn [after_startup_absent committed]. by rewrite admins_named_seeded.
  - exists (after_startup_absent w banner true), wn. split; [done|].
    cbn [startups]. unfold bind. rewrite Hrun. done.
Qed.

(** ** The error handlers and a later commit *)

(** X13.  After the 500 handler a commit stores nothing: what the failed
    request had added to the session or flushed into its transaction is
    gone, no row is inserted, and the database stays as it was committed
    before. *)
Theorem internal_error_then_commit (error : exn) (w : world) :
  exists response w',
    (let* response := internal_error error in
     run session_commit in ret response) w = (Ok response, w') /\
    status response = 500%Z /\
    committed w' = committed w /\
    txn w' = committed w /\
    trace w' =
      trace w ++ [EvRollback; EvRender (py "errors/500.html"); EvCommit].
Proof.
  eexists _, _. split; [reflexivity|]. cbn -[py].
  by rewrite <- !app_assoc.
Qed.

Lemma insert_same (e : entity) (w1 w2 : world) :
  same_but_trace w1 w2 ->
  fst (insert e w1) = fst (insert e w2) /\
  same_but_trace (snd (insert e w1)) (snd (insert e w2)).
Proof.
  intros (Hc & Ht & Hs & Hi & Hd & Ho). unfold insert. rewrite Ht.
  destruct (insert_entity (txn w2) e); cbn; by repeat split.
Qed.

Lemma insert_all_same (l : list entity) (w1 w2 : world) :
  same_but_trace w1 w2 ->
  fst (insert_all l w1) = fst (insert_all l w2) /\
  same_but_trace (snd (insert_all l w1)) (snd (insert_all l w2)).
Proof.
  revert w1 w2. induction l as [|e l IH]; intros w1 w2 H; [done|].
  cbn [insert_all]. unfold bind.
  destruct (insert_same e w1 w2 H) as [Hr Hw].
  destruct (insert e w1) as [r1 w1'], (insert e w2) as [r2 w2'].
  cbn in Hr, Hw. subst r2. destruct r1 as [[]|ex]; [by apply IH|done].
Qed.

Lemma session_commit_same (w1 w2 : world) :
  same_but_trace w1 w2 ->
  fst (session_commit w1) = fst (session_commit w2) /\
  same_but_trace (snd (session_commit w1)) (snd (session_commit w2)).
Proof.
  intros H. unfold session_commit, bind, flush, log.
  assert (same_but_trace (set_session_new [] w1) (set_session_new [] w2))
    as H0.
  { destruct H as (Hc & Ht & Hs & Hi & Hd & Ho). by repeat split. }
  destruct H as (_ & _ & Hs & _). rewrite Hs.
  destruct (insert_all_same (session_new w2) _ _ H0) as [Hr Hw].
  destruct (insert_all (session_new w2) (set_session_new [] w1))
    as [r1 w1'],
    (insert_all (session_new w2) (set_session_new [] w2)) as [r2 w2'].
  cbn in Hr, Hw. subst r2.
  destruct Hw as (Hc & Ht & Hs' & Hi & Hd & Ho).
  destruct r1 as [[]|ex]; cbn; by repeat split.
Qed.

(** X14.  The 404 handler renders its page and touches neither the
    session nor the database: a commit after it succeeds or fails as a
    commit in its place would, and leaves the same database, transaction
    and session. *)
Theorem not_found_error_then_commit (error : exn) (w : world) :
  match fst (session_commit w) with
  | Ok _ =>
      fst ((let* response := not_found_error error in
            run session_commit in ret response) w) =
        Ok {| status := 404; location := None;
              rendered := Some (py "errors/404.html") |}
  | Raise e =>
      fst ((let* response := not_found_error error in
            run session_commit in ret response) w) = Raise e
  end /\
  same_but_trace
    (snd ((let* response := not_found_error error in
           run session_commit in ret response) w))
    (snd (session_commit w)).
Proof.
  unfold not_found_error, render_template.
  unfold bind at 1 3 5. unfold bind at 1 3 5. unfold bind at 1 3 5.
  unfold log at 1 2 3, ret at 1 2 3 4 5 6. cbn -[py session_commit].
  set (w1 := set_trace _ w).
  assert (same_but_trace w1 w) as H by done.
  destruct (session_commit_same w1 w H) as [Hr Hw].
  unfold bind.
  destruct (session_commit w1) as [r1 w1'], (session_commit w) as [r2 w2'].
  cbn in Hr, Hw. subst r2. by destruct r1 as [[]|ex].
Qed.

End App.

(** ** The configuration *)

(** C7, as amended.  Two settings are read from the environment: the secret
    key from [SECRET_KEY] and the database URL from [DATABASE_URL].  Each
    takes the variable's value when that is a non-empty string, and its
    hard-coded default when the variable is unset.  The other settings are
    constants, the same in every environment. *)
Theorem Config_reads_two_variables (environ : gmap pystr pystr) :
  (forall v, v <> [] ->
     SECRET_KEY (Config (<[py "SECRET_KEY" := v]> environ)) = v) /\
  (environ !! py "SECRET_KEY" = None ->
     SECRET_KEY (Config environ) =
       py "dev-secret-key-change-in-production-2024") /\
  (forall v, v <> [] ->
     SQLALCHEMY_DATABASE_URI (Config (<[py "DATABASE_URL" := v]> environ))
       = v) /\
  (environ !! py "DATABASE_URL" = None ->
     SQLALCHEMY_DATABASE_URI (Config environ) = py "sqlite:///bank.db") /\
  SQLALCHEMY_TRACK_MODIFICATIONS (Config environ) = false /\
  PERMANENT_SESSION_LIFETIME (Config environ) = 1800%Z /\
  SESSION_COOKIE_HTTPONLY (Config environ) = true /\
  SESSION_COOKIE_SAMESITE (Config environ) = py "Lax" /\
  WTF_CSRF_ENABLED (Config environ) = true /\
  WTF_CSRF_TIME_LIMIT (Config environ) = None.
Proof.
  repeat split.
  - intros [|c v] Hv; [done|]. cbn -[py]. by rewrite lookup_insert_eq.
  - intros Hunset. cbn -[py]. by rewrite Hunset.
  - intros [|c v] Hv; [done|]. cbn -[py]. by rewrite lookup_insert_eq.
  - intros Hunset. cbn -[py]. by rewrite Hunset.
Qed.

(** C7 as first stated fails at the session lifetime: it stays at 1800
    seconds in an environment that sets a variable of its name, and in
    every other one, so no environment variable overrides it. *)
Lemma Config_session_lifetime_fixed :
  PERMANENT_SESSION_LIFETIME
    (Config {[ py "PERMANENT_SESSION_LIFETIME" := py "60" ]}) = 1800%Z /\
  ~ overridable PERMANENT_SESSION_LIFETIME.
Proof.
  split; [reflexivity|]. intros (environ & environ' & Hdiff). by apply Hdiff.
Qed.

Lemma Config_reads_two_variables_witness :
  py "s3cret" <> [] /\
  (∅ : gmap pystr pystr) !! py "DATABASE_URL" = None /\
  SECRET_KEY (Config (<[py "SECRET_KEY" := py "s3cret"]> ∅)) = py "s3cret" /\
  SQLALCHEMY_DATABASE_URI (Config ∅) = py "sqlite:///bank.db".
Proof.
  split; [discriminate|]. split; [reflexivity|]. split.
  - apply (proj1 (Config_reads_two_variables ∅)). discriminate.
  - apply (proj1 (proj2 (proj2 (proj2 (Config_reads_two_variables ∅))))).
    reflexivity.
Defined.


(** ** The stored hash and werkzeug's check *)

Lemma split_max_piece (a rest : pystr) (sep : N) (n : nat) :
  sep ∉ a ->
  Werkzeug.split_max (a ++ sep :: rest) sep (S n) =
    a :: Werkzeug.split_max rest sep n.
Proof.
  induction a as [|c a IH]; intros Hsep; cbn.
  - by rewrite N.eqb_refl.
  - apply not_elem_of_cons in Hsep as [Hc Ha].
    destruct (N.eqb_spec c sep) as [E|_]; [congruence|]. by rewrite IH.
Qed.

Lemma split_max_0 (s : pystr) (sep : N) : Werkzeug.split_max s sep 0 = [s].
Proof. by destruct s. Qed.

Lemma decimal_snoc (a : pystr) (c : N) :
  PyStr.decimal (a ++ [c]) = (10 * PyStr.decimal a + Z.of_N (c - 48))%Z.
Proof. unfold PyStr.decimal. by rewrite fold_left_app. Qed.

Lemma is_digit_of (d : N) : d < 10 -> PyStr.is_digit (48 + d) = true.
Proof.
  intros Hd. unfold PyStr.is_digit.
  apply andb_true_iff. split; apply N.leb_le; lia.
Qed.

Lemma digits_of_digits (fuel : nat) (n : N) :
  all_digits (Werkzeug.digits_of fuel n).
Proof.
  revert n. induction fuel as [|fuel IH]; intros n; cbn; [constructor|].
  destruct (N.ltb_spec n 10) as [Hn|Hn].
  - repeat constructor. by apply is_digit_of.
  - apply Forall_app. split; [apply IH|]. repeat constructor.
    by apply is_digit_of, N.mod_upper_bound.
Qed.

Lemma digits_of_decimal (fuel : nat) (n : N) :
  n < 2 ^ N.of_nat fuel ->
  PyStr.decimal (Werkzeug.digits_of fuel n) = Z.of_N n.
Proof.
  revert n. induction fuel as [|fuel IH]; intros n Hn.
  - cbn in Hn. assert (n = 0) as -> by lia. reflexivity.
  - cbn [Werkzeug.digits_of]. destruct (N.ltb_spec n 10) as [Hlt|Hge].
    + unfold PyStr.decimal. cbn. lia.
    + rewrite decimal_snoc, IH.
      * rewrite (N.div_mod n 10) at 3 by done.
        generalize (n / 10) (n mod 10). intros q r. lia.
      * rewrite Nat2N.inj_succ, N.pow_succ_r' in Hn.
        apply N.Div0.div_lt_upper_bound.
        generalize dependent (2 ^ N.of_nat fuel). intros p Hp. lia.
Qed.

Lemma str_N_digits (n : N) : all_digits (Werkzeug.str_N n).
Proof. apply digits_of_digits. Qed.

Lemma str_N_nonempty (n : N) : Werkzeug.str_N n <> [].
Proof.
  unfold Werkzeug.str_N. cbn.
  destruct (n <? 10); [done|]. by destruct (Werkzeug.digits_of _ _).
Qed.

Lemma str_N_decimal (n : N) : PyStr.decimal (Werkzeug.str_N n) = Z.of_N n.
Proof.
  apply digits_of_decimal.
  rewrite Nat2N.inj_succ, N2Nat.id.
  destruct (N.eq_dec n 0) as [->|Hn]; [done|].
  apply N.log2_spec. lia.
Qed.

Lemma digits_without (a : pystr) (c : N) :
  all_digits a -> (c < 48 \/ 57 < c) -> c ∉ a.
Proof.
  intros Ha Hc Hin. rewrite Forall_forall in Ha.
  apply Ha, is_digit_range in Hin. lia.
Qed.

(** An integer that is printed within the digit limit is read back. *)
Lemma py_int_py_str
  (unicode_IsWhitespace : N -> bool) (unicode_ToDecimalDigit : N -> option N)
  (int_max_str_digits : nat) (n : N) (printed : pystr) :
  Werkzeug.py_str int_max_str_digits (Z.of_N n) = Some printed ->
  printed = Werkzeug.str_N n /\
  PyStr.py_int unicode_IsWhitespace unicode_ToDecimalDigit
    int_max_str_digits printed = Some (Z.of_N n).
Proof.
  unfold Werkzeug.py_str. rewrite Zabs2N.id.
  destruct (PyStr.exceeds_max_str_digits _ _) eqn:Hlim; [done|].
  destruct (Z.ltb_spec (Z.of_N n) 0) as [Hneg|_]; [lia|].
  intros [= <-]. split; [done|].
  rewrite py_int_decimal, ?str_N_decimal;
    auto using str_N_nonempty, str_N_digits.
Qed.

Lemma hex_digit_ascii (n : N) : n < 16 -> (Werkzeug.hex_digit n <? 128) = true.
Proof.
  intros Hn. unfold Werkzeug.hex_digit. apply N.ltb_lt.
  destruct (n <? 10); lia.
Qed.

Lemma hex_ascii (digest : list N) :
  Werkzeug.is_ascii (Werkzeug.hex digest) = true.
Proof.
  unfold Werkzeug.is_ascii, Werkzeug.hex.
  induction digest as [|b digest IH]; [done|]. cbn.
  rewrite IH, !hex_digit_ascii; [done| |].
  - by apply N.mod_upper_bound.
  - apply N.Div0.div_lt_upper_bound.
    assert (b mod 256 < 256) as Hb by (by apply N.mod_upper_bound).
    revert Hb. generalize (b mod 256). intros m Hm. lia.
Qed.

Lemma salt_chars_plain : Forall (fun c => c <> 36) Werkzeug.SALT_CHARS.
Proof. repeat constructor; discriminate. Qed.

(** A salt of [gen_salt] holds no dollar sign. *)
Lemma gen_salt_plain (randbelow : nat -> nat) (first length : nat) :
  36 ∉ Werkzeug.gen_salt randbelow first length.
Proof.
  unfold Werkzeug.gen_salt. intros Hin.
  apply list_elem_of_fmap in Hin as (i & Hc & _).
  pose proof salt_chars_plain as Hplain. rewrite List.Forall_forall in Hplain.
  apply (Hplain 36); [|done]. rewrite Hc.
  apply nth_In. change (List.length Werkzeug.SALT_CHARS) with 62%nat.
  apply Nat.mod_upper_bound. lia.
Qed.

Section Authentication.
Variable unicode_IsWhitespace : N -> bool.
Variable unicode_ToDecimalDigit : N -> option N.
Variable int_max_str_digits : nat.
Variable pbkdf2_hmac : pystr -> pystr -> pystr -> Z -> result (list N).
Variable other_method : pystr -> pystr -> pystr -> result (pystr * pystr).
Variable DEFAULT_PBKDF2_ITERATIONS : N.

Local Abbreviation _hash_internal :=
  (Werkzeug._hash_internal unicode_IsWhitespace unicode_ToDecimalDigit
     int_max_str_digits pbkdf2_hmac other_method DEFAULT_PBKDF2_ITERATIONS).

Local Abbreviation generate_password_hash :=
  (Werkzeug.generate_password_hash unicode_IsWhitespace
     unicode_ToDecimalDigit int_max_str_digits pbkdf2_hmac other_method
     DEFAULT_PBKDF2_ITERATIONS).

Local Abbreviation check_password_hash :=
  (Werkzeug.check_password_hash unicode_IsWhitespace unicode_ToDecimalDigit
     int_max_str_digits pbkdf2_hmac other_method DEFAULT_PBKDF2_ITERATIONS).

(** What [pbkdf2:sha256] makes: the method comes back with the number of
    iterations written out. *)
Lemma hash_internal_made (salt password h actual_method : pystr) :
  _hash_internal (py "pbkdf2:sha256") salt password = Ok (h, actual_method) ->
  exists digest,
    h = Werkzeug.hex digest /\
    actual_method =
      py "pbkdf2" ++ 58 :: py "sha256" ++
        58 :: Werkzeug.str_N DEFAULT_PBKDF2_ITERATIONS /\
    _hash_internal actual_method salt password = Ok (h, actual_method).
Proof.
  unfold Werkzeug._hash_internal.
  change (PyStr.split (py "pbkdf2:sha256") 58)
    with [py "pbkdf2"; py "sha256"].
  destruct (negb _) eqn:Hencodes; [done|].
  rewrite bool_decide_eq_true_2 by done.
  unfold Werkzeug.pbkdf2 at 1.
  destruct (pbkdf2_hmac _ _ _ _) as [digest|e] eqn:Hdigest; [|done].
  destruct (Werkzeug.py_str _ _) as [printed|] eqn:Hprinted; [|done].
  intros Hmade.
  assert (Werkzeug.hex digest = h /\
          py "pbkdf2:" ++ py "sha256" ++ py ":" ++ printed = actual_method)
    as [<- <-] by (by inversion Hmade).
  clear Hmade. exists digest.
  destruct (py_int_py_str unicode_IsWhitespace unicode_ToDecimalDigit _ _ _
              Hprinted) as [-> Hint].
  split; [done|]. split; [done|].
  change (py "pbkdf2:" ++ py "sha256" ++ py ":" ++ ?printed)
    with (py "pbkdf2" ++ 58 :: py "sha256" ++ 58 :: printed).
  rewrite (split_piece (py "pbkdf2")), (split_piece (py "sha256")),
    split_last_piece.
  - rewrite bool_decide_eq_true_2 by done.
    rewrite Hint. unfold Werkzeug.pbkdf2. by rewrite Hdigest, Hprinted.
  - apply digits_without; [apply str_N_digits|lia].
  - compute_done.
  - compute_done.
Qed.

(** Whatever [generate_password_hash] returns for the method
    [pbkdf2:sha256] and a salt without a dollar sign,
    [check_password_hash] accepts for the same password. *)
Lemma check_generated (password salt pwhash : pystr) :
  36 ∉ salt ->
  generate_password_hash password (py "pbkdf2:sha256") salt = Ok pwhash ->
  check_password_hash pwhash password = Ok true.
Proof.
  intros Hsalt. unfold Werkzeug.generate_password_hash.
  destruct (_hash_internal _ _ _) as [[h actual_method]|e] eqn:Hmade;
    [|done].
  intros Hstored.
  assert (actual_method ++ [36] ++ salt ++ [36] ++ h = pwhash) as <-
    by (by inversion Hstored).
  clear Hstored.
  destruct (hash_internal_made _ _ _ _ Hmade) as (digest & -> & Hm & Hagain).
  unfold Werkzeug.check_password_hash.
  cbn [app]. rewrite !split_max_piece, split_max_0; [|done|].
  - rewrite Hagain. unfold Werkzeug.compare_digest.
    by rewrite hex_ascii, bool_decide_eq_true_2.
  - rewrite Hm.
    apply not_elem_of_app. split; [compute_done|].
    apply not_elem_of_cons. split; [done|].
    apply not_elem_of_app. split; [compute_done|].
    apply not_elem_of_cons. split; [done|].
    apply digits_without; [apply str_N_digits|lia].
Qed.

(** The factory's collaborators, and the random source behind the salt. *)
Variable randbelow : nat -> nat.
Variable constraints_ok : database -> entity -> bool.
Variable new_key : list Z -> Z.
Variable stdout_encodes : N -> bool.
Variable stored_hash : pystr -> pystr -> pystr -> pystr.
Variable salt_drawn : nat -> pystr.

(** C8.  Let the start-up, begun with no transaction open and an instance
    path that exists or can be made, seed the default administrator: none
    is called [admin] and the database accepts the row.  Let the salt be
    sixteen characters of werkzeug's [gen_salt], and the hash stored be
    the one werkzeug's [generate_password_hash] returns for [admin123],
    the method [pbkdf2:sha256] and that salt.  Then, whether the start-up
    returns or raises at its banner, exactly one administrator is called
    [admin] afterwards, and werkzeug's [check_password_hash] returns
    [True] for the stored hash and the password [admin123]. *)
Theorem seeded_admin_authenticates (config_class : ConfigClass) (w : world) :
  (exists first,
     salt_drawn (drawn w) = Werkzeug.gen_salt randbelow first 16) ->
  generate_password_hash (py "admin123") (py "pbkdf2:sha256")
      (salt_drawn (drawn w)) =
    Ok (stored_hash (py "admin123") (py "pbkdf2:sha256")
          (salt_drawn (drawn w))) ->
  session_idle w ->
  instance_dir w <> PathBlocked ->
  admins_named (py "admin") (committed w) = [] ->
  seed_accepted constraints_ok stored_hash salt_drawn w ->
  exists admin,
    admins_named (py "admin")
      (committed
         (snd (create_app constraints_ok new_key stdout_encodes stored_hash
                 salt_drawn config_class w))) = [admin] /\
    check_password_hash (Admin.password admin) (py "admin123") = Ok true.
Proof.
  intros [first Hsalt] Hhash Hidle _ Hnamed Hok.
  destruct (create_app_absent constraints_ok new_key stdout_encodes
              stored_hash salt_drawn config_class w Hidle Hnamed Hok)
    as (printed & Hrun & _).
  rewrite Hrun. cbn [snd after_startup_absent committed].
  exists (seeded_admin new_key stored_hash salt_drawn w).
  split; [by apply admins_named_seeded|].
  cbn [seeded_admin Admin.password]. unfold seed_hash.
  apply (check_generated _ (salt_drawn (drawn w))); [|done].
  rewrite Hsalt. apply gen_salt_plain.
Qed.

End Authentication.
(** ** The model on concrete inputs *)

Abbreviation int_latin1 :=
  (PyStr.py_int latin1_IsWhitespace latin1_ToDecimalDigit
     default_max_str_digits).

(** The loader over SQLite. *)
Abbreviation load_user_latin1 :=
  (load_user latin1_IsWhitespace latin1_ToDecimalDigit
     default_max_str_digits unique_username next_rowid sqlite_key_error).

(** The factory over a database that numbers its rows in a row, with a
    console in UTF-8. *)
Abbreviation create_app_plain :=
  (create_app unique_username next_rowid utf8_console
     plain_generate_password_hash counting_salt).

Abbreviation check_password_hash_stub :=
  (Werkzeug.check_password_hash latin1_IsWhitespace latin1_ToDecimalDigit
     default_max_str_digits stub_pbkdf2_hmac no_other_method 600000).

(** The world after the first start-up on a fresh database. *)
Definition seeded_world : world :=
  Eval vm_compute in snd (create_app_plain (Config ∅) fresh_world).

Example int_accepts :
  List.map int_latin1
    [py "42"; py " 42 "; py "+42"; py "-42"; py "1_000"; py "007";
     [160; 52; 50; 133]]
  = [Some 42; Some 42; Some 42; Some (-42); Some 1000; Some 7; Some 42]%Z.
Proof. vm_compute. reflexivity. Qed.

Example int_rejects :
  List.map int_latin1
    [py ""; py " "; py "+"; py "4 2"; py "_1"; py "1_"; py "1__0"; py "1_x";
     py "--1"; py "+ 1"; py "0x10"; [28; 53]; [53; 0]; [178]]
  = List.repeat None 14.
Proof. vm_compute. reflexivity. Qed.

Example split_pieces :
  [PyStr.split (py "admin_") 95; PyStr.split (py "admin_1_2") 95;
   PyStr.split (py "admin__5") 95; PyStr.split (py "") 95]
  = [[py "admin"; py ""]; [py "admin"; py "1"; py "2"];
     [py "admin"; py ""; py "5"]; [py ""]].
Proof. vm_compute. reflexivity. Qed.

Example seeded_world_admins :
  admin_table (committed seeded_world) =
    Some [{| Admin.id := Some 1%Z;
             Admin.username := py "admin";
             Admin.email := py "admin@banking.com";
             Admin.password := py "pbkdf2:sha256$A$admin123" |}].
Proof. vm_compute. reflexivity. Qed.

Example second_startup_changes_no_row :
  committed (snd (create_app_plain (Config ∅) seeded_world)) =
    committed seeded_world.
Proof. vm_compute. reflexivity. Qed.

(** On a console in Latin-1 the first start-up stores the administrator,
    writes the rule that opens the banner and raises at the check mark of
    the next line. *)
Example latin1_console_startup :
  let outcome :=
    create_app unique_username next_rowid latin1_console
      plain_generate_password_hash counting_salt (Config ∅) fresh_world in
  fst outcome = Raise UnicodeEncodeError /\
  committed (snd outcome) = committed seeded_world /\
  stdout (snd outcome) = [PyStr.repeat_str (py "=") 60].
Proof. vm_compute. done. Qed.

(** The lookup of a key of more than 64 bits raises in the driver. *)
Example load_user_wide_key :
  fst (load_user_latin1 (py "99999999999999999999") seeded_world) =
    Raise OverflowError.
Proof. vm_compute. reflexivity. Qed.

Example str_N_prints :
  List.map Werkzeug.str_N [0; 7; 10; 600000] =
    [py "0"; py "7"; py "10"; py "600000"].
Proof. vm_compute. reflexivity. Qed.

Example stub_hash_layout :
  stub_generate_password_hash (py "admin123") (py "pbkdf2:sha256") (py "ab")
  = py "pbkdf2:sha256:600000$ab$6162" ++ py "61646d696e313233".
Proof. vm_compute. reflexivity. Qed.

Example check_password_hash_rejects :
  List.map (fun pwhash => check_password_hash_stub pwhash (py "admin123"))
    [py "pbkdf2:sha256:600000$ab$6162"; py "plain"; py "a$b";
     py "md5$ab$cd"]
  = [Ok false; Ok false; Ok false; Raise ValueError].
Proof. vm_compute. reflexivity. Qed.

(** ** Counterexamples and witnesses *)



(** C4 as first stated fails at [admin_1_x]: what follows the first
    underscore, [1_x], is no integer, and yet the loader raises nothing and
    returns the administrator whose key is 1. *)
Lemma load_user_admin_1_x_returns :
  PyStr.startswith (py "admin_1_x") (py "admin_") = true /\
  int_latin1 (py "1_x") = None /\
  fst (load_user_latin1 (py "admin_1_x") seeded_world) =
    Ok (Some (PAdmin
      {| Admin.id := Some 1%Z;
         Admin.username := py "admin";
         Admin.email := py "admin@banking.com";
         Admin.password := py "pbkdf2:sha256$A$admin123" |})).
Proof. vm_compute. done. Qed.

Lemma load_user_malformed_raises_witness :
  PyStr.startswith (py "admin_x") (py "admin_") = true /\
  PyStr.split (py "admin_x") 95 !! 1%nat = Some (py "x") /\
  int_latin1 (py "x") = None /\
  load_user_latin1 (py "admin_x") seeded_world
    = (Raise ValueError, seeded_world) /\
  PyStr.startswith (py "abc") (py "admin_") = false /\
  int_latin1 (py "abc") = None /\
  load_user_latin1 (py "abc") seeded_world = (Raise ValueError, seeded_world).
Proof.
  pose proof (load_user_malformed_raises latin1_IsWhitespace
                latin1_ToDecimalDigit default_max_str_digits unique_username
                next_rowid sqlite_key_error) as H.
  refine (conj eq_refl (conj eq_refl (conj eq_refl (conj _
            (conj eq_refl (conj eq_refl _)))))).
  - exact (proj1 (H (py "admin_x") seeded_world) (py "x")
             eq_refl eq_refl eq_refl).
  - exact (proj2 (H (py "abc") seeded_world) eq_refl eq_refl).
Defined.

Lemma load_user_extra_segments_witness :
  py "7" <> [] /\
  Forall (fun c => PyStr.is_digit c = true) (py "7") /\
  PyStr.exceeds_max_str_digits default_max_str_digits (length (py "7"))
    = false /\
  load_user_latin1 (py "admin_" ++ py "7" ++ py "_" ++ py "x_y") seeded_world
    = load_user_latin1 (py "admin_" ++ py "7") seeded_world.
Proof.
  assert (Hne : py "7" <> []) by discriminate.
  assert (Hdigits : Forall (fun c => PyStr.is_digit c = true) (py "7"))
    by (repeat constructor).
  refine (conj Hne (conj Hdigits (conj eq_refl _))).
  exact (proj1 (proj2
           (load_user_extra_segments latin1_IsWhitespace
              latin1_ToDecimalDigit default_max_str_digits unique_username
              next_rowid sqlite_key_error (py "7")
              (py "x_y") seeded_world Hne Hdigits eq_refl))).
Defined.

Lemma index_redirects_to_chooser_witness :
  auth_url_map (py "auth.choose") = Some (py "/auth/choose") /\
  index auth_url_map {| method := py "GET"; path := py "/" |} seeded_world =
    (Ok {| status := 302; location := Some (py "/auth/choose");
           rendered := None |}, seeded_world).
Proof.
  refine (conj eq_refl _).
  exact (proj1 (index_redirects_to_chooser auth_url_map
                  {| method := py "GET"; path := py "/" |} seeded_world)
           (py "/auth/choose") eq_refl).
Defined.

(** Two start-ups on a console in Latin-1: the first raises at the
    banner, the second finds the administrator, and one is stored. *)
Lemma seeding_idempotent_witness :
  (0 < 2)%nat /\
  session_idle fresh_world /\
  instance_dir fresh_world <> PathBlocked /\
  seed_accepted unique_username plain_generate_password_hash counting_salt
    fresh_world /\
  (length (admins_named (py "admin") (committed fresh_world)) <= 1)%nat /\
  length
    (admins_named (py "admin")
       (committed
          (invocations unique_username next_rowid latin1_console
             plain_generate_password_hash counting_salt 2 (Config ∅)
             fresh_world))) = 1%nat.
Proof.
  assert (Hn : (0 < 2)%nat) by lia.
  assert (Hidle : session_idle fresh_world) by (split; reflexivity).
  assert (Hdir : instance_dir fresh_world <> PathBlocked) by discriminate.
  assert (Hok : seed_accepted unique_username plain_generate_password_hash
                  counting_salt fresh_world) by reflexivity.
  assert (Hone :
    (length (admins_named (py "admin") (committed fresh_world)) <= 1)%nat)
    by (cbn; lia).
  refine (conj Hn (conj Hidle (conj Hdir (conj Hok (conj Hone _))))).
  exact (proj1 (proj2
           (seeding_idempotent unique_username next_rowid latin1_console
              plain_generate_password_hash counting_salt (Config ∅) 2
              fresh_world Hn Hidle Hdir (fun _ => Hok))) Hone).
Defined.

Lemma create_app_seeds_default_admin_witness :
  session_idle fresh_world /\
  instance_dir fresh_world <> PathBlocked /\
  admins_named (py "admin") (committed fresh_world) = [] /\
  seed_accepted unique_username plain_generate_password_hash counting_salt
    fresh_world /\
  banner_printable utf8_console = true /\
  exists w',
    create_app_plain (Config ∅) fresh_world = (Ok (app_of (Config ∅)), w') /\
    stdout w' = stdout fresh_world ++ banner.
Proof.
  assert (Hidle : session_idle fresh_world) by (split; reflexivity).
  assert (Hdir : instance_dir fresh_world <> PathBlocked) by discriminate.
  assert (Hok : seed_accepted unique_username plain_generate_password_hash
                  counting_salt fresh_world) by reflexivity.
  refine (conj Hidle (conj Hdir (conj eq_refl (conj Hok (conj eq_refl _))))).
  destruct (create_app_seeds_default_admin unique_username next_rowid
              utf8_console plain_generate_password_hash counting_salt
              (Config ∅) fresh_world Hidle Hdir eq_refl Hok)
    as (r & w' & printed & rest & Hrun & _ & _ & _ & Hout & Hprint & _).
  destruct (Hprint eq_refl) as [Hr Hprinted].
  rewrite Hr in Hrun. rewrite Hprinted in Hout.
  exact (ex_intro _ w' (conj Hrun Hout)).
Defined.

(** On a console in Latin-1, where the first start-up raises at the
    banner, the stored hash verifies all the same. *)
Lemma seeded_admin_authenticates_witness :
  session_idle fresh_world /\
  instance_dir fresh_world <> PathBlocked /\
  admins_named (py "admin") (committed fresh_world) = [] /\
  seed_accepted unique_username stub_generate_password_hash stub_salt
    fresh_world /\
  exists admin,
    admins_named (py "admin")
      (committed
         (snd (create_app unique_username next_rowid latin1_console
                 stub_generate_password_hash stub_salt (Config ∅)
                 fresh_world))) = [admin] /\
    check_password_hash_stub (Admin.password admin) (py "admin123") = Ok true.
Proof.
  assert (Hidle : session_idle fresh_world) by (split; reflexivity).
  assert (Hdir : instance_dir fresh_world <> PathBlocked) by discriminate.
  assert (Hok : seed_accepted unique_username stub_generate_password_hash
                  stub_salt fresh_world) by reflexivity.
  refine (conj Hidle (conj Hdir (conj eq_refl (conj Hok _)))).
  exact (seeded_admin_authenticates latin1_IsWhitespace latin1_ToDecimalDigit
           default_max_str_digits stub_pbkdf2_hmac no_other_method 600000
           counting_randbelow unique_username next_rowid latin1_console
           stub_generate_password_hash stub_salt (Config ∅) fresh_world
           (ex_intro _ 0%nat eq_refl) eq_refl Hidle Hdir eq_refl Hok).
Defined.

Lemma create_app_frame_witness :
  session_idle seeded_world /\
  admins_named (py "admin") (committed seeded_world) <> [] /\
  exists w',
    create_app_plain (Config ∅) seeded_world = (Ok (app_of (Config ∅)), w') /\
    admin_table (committed w') = admin_table (committed seeded_world) /\
    stdout w' = stdout seeded_world.
Proof.
  assert (Hidle : session_idle seeded_world) by (split; reflexivity).
  assert (Hnamed : admins_named (py "admin") (committed seeded_world) <> [])
    by discriminate.
  refine (conj Hidle (conj Hnamed _)).
  destruct (create_app_frame unique_username next_rowid utf8_console
              plain_generate_password_hash counting_salt (Config ∅)
              seeded_world Hidle Hnamed)
    as (w' & Hrun & Hadmins & _ & _ & _ & Hout & _).
  exact (ex_intro _ w' (conj Hrun (conj Hadmins Hout))).
Defined.

(** ** More on the configuration *)

(** X15.  In no environment is the secret key or the database URL the
    empty string. *)
Theorem Config_never_empty (environ : gmap pystr pystr) :
  SECRET_KEY (Config environ) <> [] /\
  SQLALCHEMY_DATABASE_URI (Config environ) <> [].
Proof.
  split; cbn -[py].
  - by destruct (environ !! py "SECRET_KEY") as [[|c v]|].
  - by destruct (environ !! py "DATABASE_URL") as [[|c v]|].
Qed.

(** X16.  A variable set to the empty string counts as unset: the
    configuration is the one of the environment without that variable. *)
Theorem Config_empty_value_is_unset (environ : gmap pystr pystr) :
  Config (<[py "SECRET_KEY" := []]> environ) =
    Config (delete (py "SECRET_KEY") environ) /\
  Config (<[py "DATABASE_URL" := []]> environ) =
    Config (delete (py "DATABASE_URL") environ).
Proof.
  assert (py "SECRET_KEY" <> py "DATABASE_URL") as Hne by discriminate.
  split; unfold Config; f_equal.
  - by rewrite lookup_insert_eq, lookup_delete_eq.
  - by rewrite lookup_insert_ne, lookup_delete_ne.
  - by rewrite lookup_insert_ne, lookup_delete_ne.
  - by rewrite lookup_insert_eq, lookup_delete_eq.
Qed.

(** X17.  The configuration depends on the environment through
    [SECRET_KEY] and [DATABASE_URL] alone: two environments that agree on
    these two give the same configuration. *)
Theorem Config_reads_nothing_else (environ environ' : gmap pystr pystr) :
  environ !! py "SECRET_KEY" = environ' !! py "SECRET_KEY" ->
  environ !! py "DATABASE_URL" = environ' !! py "DATABASE_URL" ->
  Config environ = Config environ'.
Proof. intros Hkey Hurl. unfold Config. by rewrite Hkey, Hurl. Qed.

Lemma Config_reads_nothing_else_witness :
  ({[ py "HOME" := py "/root" ]} : gmap pystr pystr) !! py "SECRET_KEY" =
    (∅ : gmap pystr pystr) !! py "SECRET_KEY" /\
  ({[ py "HOME" := py "/root" ]} : gmap pystr pystr) !! py "DATABASE_URL" =
    (∅ : gmap pystr pystr) !! py "DATABASE_URL" /\
  Config {[ py "HOME" := py "/root" ]} = Config ∅.
Proof.
  refine (conj eq_refl (conj eq_refl _)).
  exact (Config_reads_nothing_else {[ py "HOME" := py "/root" ]} ∅
           eq_refl eq_refl).
Defined.

(** ** Further witnesses *)

Lemma load_user_writes_nothing_witness :
  session_new seeded_world = [] /\
  txn (snd (load_user_latin1 (py "admin_1") seeded_world)) =
    txn seeded_world /\
  session_new (snd (load_user_latin1 (py "admin_1") seeded_world)) = [].
Proof.
  refine (conj eq_refl _).
  exact (proj2 (proj2 (proj2 (proj2
           (load_user_writes_nothing latin1_IsWhitespace
              latin1_ToDecimalDigit default_max_str_digits unique_username
              next_rowid sqlite_key_error (py "admin_1") seeded_world))))
           eq_refl).
Defined.

Lemma load_user_raises_only_witness :
  session_new seeded_world = [] /\
  fst (load_user_latin1 (py "99999999999999999999") seeded_world) =
    Raise OverflowError /\
  ((OverflowError = ValueError /\
    snd (load_user_latin1 (py "99999999999999999999") seeded_world) =
      seeded_world) \/
   (OverflowError = OperationalError /\
    user_table (txn seeded_world) = None) \/
   exists key, sqlite_key_error key = Some OverflowError).
Proof.
  refine (conj eq_refl (conj eq_refl _)).
  exact (load_user_raises_only latin1_IsWhitespace latin1_ToDecimalDigit
           default_max_str_digits unique_username next_rowid
           sqlite_key_error (py "99999999999999999999") seeded_world
           (snd (load_user_latin1 (py "99999999999999999999") seeded_world))
           OverflowError eq_refl eq_refl).
Defined.

Lemma load_user_returns_requested_row_witness :
  exists admin,
    load_user_latin1 (py "admin_1") seeded_world =
      (Ok (Some (PAdmin admin)),
       snd (load_user_latin1 (py "admin_1") seeded_world)) /\
    exists segment key admin' rows,
      PyStr.split (py "admin_1") 95 !! 1%nat = Some segment /\
      int_latin1 segment = Some key /\
      PAdmin admin = PAdmin admin' /\
      Admin.id admin' = Some key /\
      admin_table
        (txn (snd (load_user_latin1 (py "admin_1") seeded_world))) =
        Some rows /\
      admin' ∈ rows.
Proof.
  eexists. refine (conj eq_refl _).
  exact (load_user_returns_requested_row latin1_IsWhitespace
           latin1_ToDecimalDigit default_max_str_digits unique_username
           next_rowid sqlite_key_error (py "admin_1")
           seeded_world _ _ eq_refl).
Defined.

Lemma load_user_unknown_key_is_None_witness :
  session_new seeded_world = [] /\
  PyStr.startswith (py "99") (py "admin_") = false /\
  int_latin1 (py "99") = Some 99%Z /\
  sqlite_key_error 99 = None /\
  user_table (txn seeded_world) = Some [] /\
  fst (load_user_latin1 (py "99") seeded_world) = Ok None.
Proof.
  refine (conj eq_refl (conj eq_refl (conj eq_refl (conj eq_refl
            (conj eq_refl _))))).
  refine (proj2 (load_user_unknown_key_is_None latin1_IsWhitespace
                   latin1_ToDecimalDigit default_max_str_digits
                   unique_username next_rowid sqlite_key_error (py "99")
                   seeded_world eq_refl)
            99%Z [] eq_refl eq_refl eq_refl eq_refl _).
  intros user Hin. by apply elem_of_nil in Hin.
Defined.

Lemma load_user_bare_underscore_witness :
  py "1" <> [] /\ py "0" <> [] /\
  all_digits (py "1") /\ all_digits (py "0") /\
  PyStr.exceeds_max_str_digits default_max_str_digits
    (length (py "1") + length (py "0")) = false /\
  load_user_latin1 (py "1" ++ py "_" ++ py "0") seeded_world =
    (let* user :=
       User_query_get unique_username next_rowid sqlite_key_error 10 in
     ret (PUser <$> user)) seeded_world.
Proof.
  assert (H1 : py "1" <> []) by discriminate.
  assert (H0 : py "0" <> []) by discriminate.
  assert (D1 : all_digits (py "1")) by (repeat constructor).
  assert (D0 : all_digits (py "0")) by (repeat constructor).
  refine (conj H1 (conj H0 (conj D1 (conj D0 (conj eq_refl _))))).
  exact (proj1 (load_user_bare_underscore latin1_IsWhitespace
                  latin1_ToDecimalDigit default_max_str_digits
                  unique_username next_rowid sqlite_key_error (py "1")
                  (py "0") seeded_world H1 H0 D1 D0 eq_refl)).
Defined.

Lemma load_user_aliases_witness :
  py "7" <> [] /\ all_digits (py "7") /\
  PyStr.exceeds_max_str_digits default_max_str_digits (S (length (py "7")))
    = false /\
  load_user_latin1 (py "0" ++ py "7") seeded_world =
    load_user_latin1 (py "7") seeded_world.
Proof.
  assert (Hne : py "7" <> []) by discriminate.
  assert (Hd : all_digits (py "7")) by (repeat constructor).
  refine (conj Hne (conj Hd (conj eq_refl _))).
  exact (proj2 (proj2 (load_user_aliases latin1_IsWhitespace
                  latin1_ToDecimalDigit default_max_str_digits
                  unique_username next_rowid sqlite_key_error (py "7")
                  seeded_world Hne Hd eq_refl))).
Defined.

Lemma load_user_negative_key_witness :
  py "7" <> [] /\ all_digits (py "7") /\
  PyStr.exceeds_max_str_digits default_max_str_digits (length (py "7"))
    = false /\
  load_user_latin1 (py "-" ++ py "7") seeded_world =
    (let* user :=
       User_query_get unique_username next_rowid sqlite_key_error (-7) in
     ret (PUser <$> user)) seeded_world.
Proof.
  assert (Hne : py "7" <> []) by discriminate.
  assert (Hd : all_digits (py "7")) by (repeat constructor).
  refine (conj Hne (conj Hd (conj eq_refl _))).
  exact (proj1 (load_user_negative_key latin1_IsWhitespace
                  latin1_ToDecimalDigit default_max_str_digits
                  unique_username next_rowid sqlite_key_error (py "7")
                  seeded_world Hne Hd eq_refl)).
Defined.

Lemma create_app_rejected_seed_witness :
  session_idle clashing_world /\
  admins_named (py "admin") (committed clashing_world) = [] /\
  unique_email (create_tables (committed clashing_world))
    (EAdmin (default_admin
       (seed_hash plain_generate_password_hash counting_salt
          clashing_world))) = false /\
  exists w',
    create_app unique_email next_rowid utf8_console
      plain_generate_password_hash counting_salt
      (Config ∅) clashing_world = (Raise IntegrityError, w') /\
    committed w' = committed clashing_world.
Proof.
  assert (Hidle : session_idle clashing_world) by (split; reflexivity).
  refine (conj Hidle (conj eq_refl (conj eq_refl _))).
  destruct (create_app_rejected_seed unique_email next_rowid utf8_console
              plain_generate_password_hash counting_salt (Config ∅)
              clashing_world Hidle eq_refl eq_refl)
    as (w' & Hrun & Hc & _).
  exact (ex_intro _ w' (conj Hrun Hc)).
Defined.

Lemma create_app_establishes_witness :
  instance_dir fresh_world <> PathBlocked /\
  has_tables (committed (snd (create_app_plain (Config ∅) fresh_world))) /\
  instance_dir (snd (create_app_plain (Config ∅) fresh_world)) =
    PathDirectory.
Proof.
  assert (Hdir : instance_dir fresh_world <> PathBlocked) by discriminate.
  refine (conj Hdir _).
  pose proof (create_app_establishes latin1_IsWhitespace
                latin1_ToDecimalDigit default_max_str_digits unique_username
                next_rowid sqlite_key_error utf8_console
                plain_generate_password_hash counting_salt (Config ∅)
                fresh_world Hdir) as H.
  exact (conj (proj1 H) (proj1 (proj2 H))).
Defined.

Lemma seeded_admin_is_loaded_witness :
  session_idle fresh_world /\
  instance_dir fresh_world <> PathBlocked /\
  admins_named (py "admin") (committed fresh_world) = [] /\
  seed_accepted unique_username plain_generate_password_hash counting_salt
    fresh_world /\
  next_rowid (omap Admin.id (default [] (admin_table (committed fresh_world))))
    = 1%Z /\
  sqlite_key_error 1 = None /\
  (95 ∉ py "1") /\
  int_latin1 (py "1") = Some 1%Z /\
  fst (load_user_latin1 (py "admin_" ++ py "1")
         (snd (create_app unique_username next_rowid latin1_console
                 plain_generate_password_hash counting_salt (Config ∅)
                 fresh_world))) =
    Ok (Some (PAdmin
      (seeded_admin next_rowid plain_generate_password_hash counting_salt
         fresh_world))).
Proof.
  assert (Hidle : session_idle fresh_world) by (split; reflexivity).
  assert (Hdir : instance_dir fresh_world <> PathBlocked) by discriminate.
  assert (Hok : seed_accepted unique_username plain_generate_password_hash
                  counting_salt fresh_world) by reflexivity.
  assert (Hfresh :
    1%Z ∉ omap Admin.id (default [] (admin_table (committed fresh_world))))
    by apply not_elem_of_nil.
  assert (Hsep : 95 ∉ py "1").
  { intros Hin. apply list_elem_of_singleton in Hin. discriminate. }
  refine (conj Hidle (conj Hdir (conj eq_refl (conj Hok (conj eq_refl
            (conj eq_refl (conj Hsep (conj eq_refl _)))))))).
  exact (seeded_admin_is_loaded latin1_IsWhitespace latin1_ToDecimalDigit
           default_max_str_digits unique_username next_rowid
           sqlite_key_error latin1_console
           plain_generate_password_hash counting_salt (Config ∅) fresh_world
           (py "1") 1%Z Hidle Hdir eq_refl Hok eq_refl Hfresh eq_refl Hsep
           eq_refl).
Defined.

Lemma startups_like_one_witness :
  session_idle fresh_world /\
  instance_dir fresh_world <> PathBlocked /\
  admins_named (py "admin") (committed fresh_world) = [] /\
  seed_accepted unique_username plain_generate_password_hash counting_salt
    fresh_world /\
  banner_printable utf8_console = true /\
  exists wn,
    startups unique_username next_rowid utf8_console
      plain_generate_password_hash counting_salt 3
      (Config ∅) fresh_world = (Ok tt, wn) /\
    stdout wn = stdout fresh_world ++ banner.
Proof.
  assert (Hidle : session_idle fresh_world) by (split; reflexivity).
  assert (Hdir : instance_dir fresh_world <> PathBlocked) by discriminate.
  assert (Hok : seed_accepted unique_username plain_generate_password_hash
                  counting_salt fresh_world) by reflexivity.
  refine (conj Hidle (conj Hdir (conj eq_refl (conj Hok (conj eq_refl _))))).
  destruct (startups_like_one unique_username next_rowid utf8_console
              plain_generate_password_hash counting_salt (Config ∅) 2
              fresh_world Hidle Hdir eq_refl Hok eq_refl)
    as (w1 & wn & _ & Hrun & _ & Hout & _).
  exact (ex_intro _ wn (conj Hrun Hout)).
Defined.
